(** * The Arcade Python notify plugin: handshake and single-connection RPC dispatch

    A shallow embedding of [examples/python-plugin/plugin.py]: the
    [NotifyPlugin] capability object, the [SimpleRPCServer] (socket set-up,
    handshake line, accept, request loop, method call, stop),
    [check_environment] and [main].

    Conventions of the embedding.
    - A Python [str] is represented by its UTF-8 encoding, held in a Rocq
      [string] (a list of bytes); [bytes] values are Rocq [string]s too.
      The operations the program applies to text ([startswith], [split('.')],
      comparison, concatenation, the one-character membership test) commute
      with UTF-8 encoding.
    - Effects are explicit: a computation maps a state to an outcome (a
      value, a raised exception, or a call that never returns), a new state
      and the list of observable events it produced, in order.
    - The plugin object is its instance dictionary. The server reaches
      the plugin through [hasattr] and [getattr] on names that come from the
      wire, so a request can also name what every object inherits
      ([__setattr__], [__delattr__], ...): attribute lookup is modelled as
      Python does it, the instance dictionary hiding the methods of the
      class.
    - What belongs to the Python runtime and not to this repository (the JSON
      codec, [repr], the wording of interpreter faults, the rendering of a
      traceback) is a parameter, the class [Runtime]. *)

From Stdlib Require Import Ascii ZArith List Bool Lia.
From Stdlib Require String.
From stdpp Require Import base option list strings gmap pretty.

#[local] Set Warnings "-register-all".
#[local] Open Scope Z_scope.

(** ** Text helpers *)

Module Text.

(** The line feed character, as a text. *)
Definition newline : string := String "010"%char EmptyString.

(** [s.split(sep)] for a one-byte separator: never the empty list. *)
Fixpoint split_on (sep : ascii) (s : string) : list string :=
  match s with
  | EmptyString => [EmptyString]
  | String c s' =>
      if Ascii.eqb c sep then EmptyString :: split_on sep s'
      else match split_on sep s' with
           | [] => [String c EmptyString]
           | seg :: segs => String c seg :: segs
           end
  end.

(** [needle in hay] on text: substring search. *)
Fixpoint contains (needle hay : string) : bool :=
  String.prefix needle hay ||
  match hay with
  | EmptyString => false
  | String _ hay' => contains needle hay'
  end.

Definition byte_in (lo hi : N) (c : ascii) : bool :=
  let b := N_of_ascii c in ((lo <=? b) && (b <=? hi))%N.

(** Strict UTF-8 well-formedness, as [bytes.decode('utf-8')] checks it:
    [need] continuation bytes are still expected, the next one within
    [lo..hi] (this excludes overlong forms, surrogates and code points
    above U+10FFFF). *)
Fixpoint utf8_scan (need : nat) (lo hi : N) (s : string) : bool :=
  match s with
  | EmptyString => match need with O => true | S _ => false end
  | String c s' =>
      match need with
      | S n => byte_in lo hi c && utf8_scan n 128 191 s'
      | O =>
          if byte_in 0 127 c then utf8_scan 0 128 191 s'
          else if byte_in 194 223 c then utf8_scan 1 128 191 s'
          else if byte_in 224 224 c then utf8_scan 2 160 191 s'
          else if byte_in 225 236 c then utf8_scan 2 128 191 s'
          else if byte_in 237 237 c then utf8_scan 2 128 159 s'
          else if byte_in 238 239 c then utf8_scan 2 128 191 s'
          else if byte_in 240 240 c then utf8_scan 3 144 191 s'
          else if byte_in 241 243 c then utf8_scan 3 128 191 s'
          else if byte_in 244 244 c then utf8_scan 3 128 143 s'
          else false
      end
  end.

Definition utf8_valid (s : string) : bool := utf8_scan 0 128 191 s.

Definition starts_with_continuation (s : string) : bool :=
  match s with
  | EmptyString => false
  | String c _ => byte_in 128 191 c
  end.

(** The code points of a text, each as a one-character text: what iterating
    over a [str] yields. *)
Fixpoint chars (s : string) : list string :=
  match s with
  | EmptyString => []
  | String c s' =>
      match chars s' with
      | ch :: rest =>
          if starts_with_continuation s' then String c ch :: rest
          else String c EmptyString :: ch :: rest
      | [] => [String c EmptyString]
      end
  end.

(** The bytes of a [bytes] value, one by one. *)
Fixpoint bytes_of (s : string) : list N :=
  match s with
  | EmptyString => []
  | String c s' => N_of_ascii c :: bytes_of s'
  end.

End Text.

Example split_on_dots : Text.split_on "." "Plugin.Notify.Send" = ["Plugin"; "Notify"; "Send"].
Proof. reflexivity. Qed.

Example split_on_trailing_dot : Text.split_on "." "Send." = ["Send"; EmptyString].
Proof. reflexivity. Qed.

Example contains_is_substring_search :
  Text.contains "2" "1,2" = true /\ Text.contains "2" "12" = true
  /\ Text.contains "2" "1" = false.
Proof. repeat split. Qed.

Example chars_of_mixed_text : Text.chars "a错b" = ["a"; "错"; "b"].
Proof. reflexivity. Qed.

Example utf8_valid_examples :
  Text.utf8_valid "错误: x" = true
  /\ Text.utf8_valid (String "255"%char EmptyString) = false
  /\ Text.utf8_valid (String "192"%char (String "128"%char EmptyString)) = false.
Proof. repeat split. Qed.

(** ** Python values *)

(** A binary64 value: not-a-number, an infinity, or [(-1)^neg * m * 2^e]. *)
Inductive pyfloat : Type :=
| FNan
| FInf (neg : bool)
| FFinite (neg : bool) (m : N) (e : Z).

(** The values that cross the RPC boundary: everything [json.loads] can
    produce, plus [bytes] and tuples, which the plugin code tests for or
    which the socket layer hands out. Dictionary keys are texts, in
    insertion order. *)
Inductive pyval : Type :=
| PNone
| PBool (b : bool)
| PInt (z : Z)
| PFloat (f : pyfloat)
| PStr (s : string)
| PBytes (b : string)
| PList (l : list pyval)
| PTuple (l : list pyval)
| PDict (d : list (string * pyval)).

Definition is_None (v : pyval) : bool :=
  match v with PNone => true | _ => false end.

Definition is_str (v : pyval) : bool :=
  match v with PStr _ => true | _ => false end.

(** [type(v).__name__]. *)
Definition type_name (v : pyval) : string :=
  match v with
  | PNone => "NoneType" | PBool _ => "bool" | PInt _ => "int"
  | PFloat _ => "float" | PStr _ => "str" | PBytes _ => "bytes"
  | PList _ => "list" | PTuple _ => "tuple" | PDict _ => "dict"
  end.

(** [bool(v)]: the truth value Python's [if v:] tests. *)
Definition truthy (v : pyval) : bool :=
  match v with
  | PNone => false
  | PBool b => b
  | PInt z => negb (z =? 0)
  | PFloat (FFinite _ m _) => negb (m =? 0)%N
  | PFloat _ => true
  | PStr s | PBytes s => negb (String.eqb s EmptyString)
  | PList l | PTuple l => match l with [] => false | _ => true end
  | PDict d => match d with [] => false | _ => true end
  end.

(** [d.get(key, default)]. *)
Fixpoint dict_get (d : list (string * pyval)) (key : string) (default : pyval) : pyval :=
  match d with
  | [] => default
  | (k, v) :: d' => if String.eqb k key then v else dict_get d' key default
  end.

(** ** Exceptions *)

(** The exception classes the program distinguishes. [SystemExit] and
    [KeyboardInterrupt] derive from [BaseException] only; all others derive
    from [Exception]. *)
Inductive exc_kind : Type :=
| AttributeError
| TypeError
| UnicodeDecodeError
| JSONDecodeError
| ConnectionResetError
| OSError
| OtherException (cls : string)
| SystemExit (code : Z)
| KeyboardInterrupt.

(** An exception object: its class and [str(e)]. *)
Record pyexc : Type := PyExc { exc_kind_of : exc_kind; exc_str : string }.

Definition is_Exception (e : pyexc) : bool :=
  match exc_kind_of e with
  | SystemExit _ | KeyboardInterrupt => false
  | _ => true
  end.

Definition is_JSONDecodeError (e : pyexc) : bool :=
  match exc_kind_of e with JSONDecodeError => true | _ => false end.

Definition is_ConnectionResetError (e : pyexc) : bool :=
  match exc_kind_of e with ConnectionResetError => true | _ => false end.

Definition is_KeyboardInterrupt (e : pyexc) : bool :=
  match exc_kind_of e with KeyboardInterrupt => true | _ => false end.

(** Faults the interpreter itself raises while running the program's
    statements. *)
Inductive fault : Type :=
| NoAttribute (owner : pyval) (attr : string)
| BytesLikeRequired (meth : string)
| NotIterable (v : pyval)
| NotCallable (v : pyval)
| BadArity (func : string) (expected given : nat)
| NotJsonInput (v : pyval)
| NoLen (v : pyval)
| InvalidUtf8 (data : string).

Definition fault_kind (f : fault) : exc_kind :=
  match f with
  | NoAttribute _ _ => AttributeError
  | InvalidUtf8 _ => UnicodeDecodeError
  | _ => TypeError
  end.

(** ** The Python runtime, as far as the program relies on it *)

Class Runtime : Type := {
  (** [repr(v)], which [str()] falls back on for containers, floats, bytes *)
  py_repr : pyval -> string;
  (** [json.loads] on a text: the parsed value, or the exception raised *)
  json_loads : string -> pyexc + pyval;
  (** [json.dumps] on the response dictionaries built by the server *)
  json_dumps : pyval -> string;
  (** the message of an interpreter fault *)
  fault_str : fault -> string;
  (** [traceback.format_exc()] while the exception is being handled *)
  format_exc : pyexc -> string
}.

Section WithRuntime.
Context `{Runtime}.

Definition exc_of_fault (f : fault) : pyexc :=
  {| exc_kind_of := fault_kind f; exc_str := fault_str f |}.

(** [str(v)], as an f-string renders a value. *)
Definition py_str (v : pyval) : string :=
  match v with
  | PNone => "None"
  | PBool true => "True"
  | PBool false => "False"
  | PInt z => pretty z
  | PStr s => s
  | _ => py_repr v
  end.

(** [data.decode('utf-8')]. *)
Definition decode_utf8 (data : string) : pyexc + string :=
  if Text.utf8_valid data then inr data else inl (exc_of_fault (InvalidUtf8 data)).

(** The positional arguments a call with the star-argument [v] passes:
    the elements [v] yields when iterated. *)
Definition unpack (v : pyval) : pyexc + list pyval :=
  match v with
  | PList l | PTuple l => inr l
  | PStr s => inr (PStr <$> Text.chars s)
  | PBytes b => inr ((fun n => PInt (Z.of_N n)) <$> Text.bytes_of b)
  | PDict d => inr ((fun kv => PStr (fst kv)) <$> d)
  | _ => inl (exc_of_fault (NotIterable v))
  end.

(** [len(v)]. *)
Definition py_len (v : pyval) : pyexc + nat :=
  match v with
  | PStr s => inr (length (Text.chars s))
  | PBytes b => inr (String.length b)
  | PList l | PTuple l => inr (length l)
  | PDict d => inr (length d)
  | _ => inl (exc_of_fault (NoLen v))
  end.

(** [json.loads(v)] on an arbitrary value: texts are parsed, [bytes] are
    decoded first, anything else is a [TypeError]. *)
Definition json_loads_val (v : pyval) : pyexc + pyval :=
  match v with
  | PStr s => json_loads s
  | PBytes b => match decode_utf8 b with inl e => inl e | inr s => json_loads s end
  | _ => inl (exc_of_fault (NotJsonInput v))
  end.

End WithRuntime.

(** ** Computations with state, exceptions and an event log *)

(** How a computation ends: with a value, with a raised exception, or not at
    all (it is blocked in a call that never returns). *)
Inductive outcome (A : Type) : Type :=
| Ret (a : A)
| Raise (e : pyexc)
| Hang.
Arguments Ret {A} a.
Arguments Raise {A} e.
Arguments Hang {A}.

Record step (E S A : Type) : Type := Step { res : outcome A; st : S; out : list E }.
Arguments Step {E S A} res st out.
Arguments res {E S A} s.
Arguments st {E S A} s.
Arguments out {E S A} s.

(** A computation over a state [S] that logs events of type [E]. *)
Definition M (E S A : Type) : Type := S -> step E S A.

(** The events [o] happened before the step [r]. *)
Definition after {E S A} (o : list E) (r : step E S A) : step E S A :=
  match r with
  | Step x s o' => Step x s (o ++ o')
  end.

Section Monad.
Context {E S : Type}.

Definition ret {A} (a : A) : M E S A := fun s => Step (Ret a) s [].

Definition bind {A B} (m : M E S A) (f : A -> M E S B) : M E S B := fun s =>
  match m s with
  | Step (Ret a) s1 o1 => after o1 (f a s1)
  | Step (Raise e) s1 o1 => Step (Raise e) s1 o1
  | Step Hang s1 o1 => Step Hang s1 o1
  end.

Definition emit (ev : E) : M E S unit := fun s => Step (Ret tt) s [ev].
Definition raise {A} (e : pyexc) : M E S A := fun s => Step (Raise e) s [].
Definition hang {A} : M E S A := fun s => Step Hang s [].
Definition get : M E S S := fun s => Step (Ret s) s [].
Definition modify (f : S -> S) : M E S unit := fun s => Step (Ret tt) (f s) [].

(** The value of an expression that may raise. *)
Definition eval {A} (r : pyexc + A) : M E S A :=
  match r with inl e => raise e | inr a => ret a end.

(** [try: body / except ...: handler]. The handler table answers [None]
    for an exception no clause matches, which then propagates. *)
Definition try_except {A} (body : M E S A) (handler : pyexc -> option (M E S A)) : M E S A :=
  fun s =>
    match body s with
    | Step (Raise e) s1 o1 =>
        match handler e with
        | Some h => after o1 (h s1)
        | None => Step (Raise e) s1 o1
        end
    | r => r
    end.

(** What becomes of the outcome [x] of the body of a [try] once its
    [finally] block has ended with [y]. *)
Definition finally_outcome {A} (x : outcome A) (y : outcome unit) : outcome A :=
  match y with
  | Ret _ => x
  | Raise e => Raise e
  | Hang => Hang
  end.

(** [try: body / finally: fin]. *)
Definition finally {A} (body : M E S A) (fin : M E S unit) : M E S A :=
  fun s =>
    match body s with
    | Step Hang s1 o1 => Step Hang s1 o1
    | Step x s1 o1 =>
        match fin s1 with
        | Step y s2 o2 => Step (finally_outcome x y) s2 (o1 ++ o2)
        end
    end.

End Monad.

#[global] Instance M_ret {E S} : MRet (M E S) := fun _ a => ret a.
#[global] Instance M_bind {E S} : MBind (M E S) := fun _ _ f m => bind m f.

(** Running a computation on a component [S'] of the state, its events
    translated by [inj]. *)
Definition zoom {E E' S S' A} (proj : S -> S') (upd : S' -> S -> S) (inj : E' -> E)
    (m : M E' S' A) : M E S A :=
  fun s =>
    match m (proj s) with
    | Step x s' o => Step x (upd s' s) (inj <$> o)
    end.

(** ** Observable events *)

Inductive syscall : Type :=
| Socket | Setsockopt | Bind | Listen | Getsockname | Accept
| Recv (data : string)
| Sendall (data : string)
| CloseClient | CloseServer.

(** What the process does that the outside can see, in order: a write to
    standard output, the text of one [print] or [print_exc] to standard
    error, a socket call that completed ([ok = true]) or raised
    ([ok = false]; a failed [recv] is recorded with empty data). A call that
    blocks for ever leaves no event. *)
Inductive action : Type :=
| Stdout (text : string)
| Stderr (line : string)
| Sys (call : syscall) (ok : bool).

(** ** The capability object, as the server sees it *)

(** The server uses its plugin through [hasattr] and through calling an
    attribute with positional arguments; [invoke n args] is
    [getattr(plugin, n)(...)] applied to [args]. A plugin computation prints
    lines to standard error; it has no access to the server's sockets. *)
Class PluginObject (P : Type) : Type := {
  hasattr : P -> string -> bool;
  invoke : string -> list pyval -> M string P pyval
}.

(** ** class NotifyPlugin *)

Module NotifyPlugin.

(** An instance of the class is its attribute dictionary ([__dict__]),
    in insertion order. [__init__] and the assignment [self.config = ...]
    write to it; so do the [__setattr__] and [__delattr__] that every object
    inherits, which the server resolves like any other attribute. The values
    it can hold are those of [pyval]: none of them is callable. *)
Definition t : Type := list (string * pyval).

(** The entry of the dictionary for [k], if there is one. *)
Fixpoint attr_get (self : t) (k : string) : option pyval :=
  match self with
  | [] => None
  | (k', v) :: rest => if String.eqb k' k then Some v else attr_get rest k
  end.

(** [self.__dict__[k] = v]: in place where the key is present, at the end
    where it is new. *)
Fixpoint attr_set (k : string) (v : pyval) (self : t) : t :=
  match self with
  | [] => [(k, v)]
  | (k', v') :: rest =>
      if String.eqb k' k then (k, v) :: rest else (k', v') :: attr_set k v rest
  end.

(** [del self.__dict__[k]]. *)
Fixpoint attr_del (k : string) (self : t) : t :=
  match self with
  | [] => []
  | (k', v') :: rest => if String.eqb k' k then rest else (k', v') :: attr_del k rest
  end.

(** The instance attributes as the code of the class leaves them: the
    four texts set by [__init__], and the configuration. *)
Record fields : Type := Build {
  name : string;
  version : string;
  plugin_type : string;
  description : string;
  config : pyval
}.

Definition set_config (c : pyval) (f : fields) : fields :=
  {| name := name f; version := version f; plugin_type := plugin_type f;
     description := description f; config := c |}.

(** The instance that carries these attributes and no other. *)
Definition instance (f : fields) : t :=
  [ ("name", PStr (name f)); ("version", PStr (version f));
    ("plugin_type", PStr (plugin_type f)); ("description", PStr (description f));
    ("config", config f) ].

(** What a name is bound to in the class: a method, with its number of
    parameters after [self]. *)
Inductive member : Type :=
| Method0 (body : M string t pyval)
| Method1 (body : pyval -> M string t pyval)
| Method2 (body : pyval -> pyval -> M string t pyval)
| Method3 (body : pyval -> pyval -> pyval -> M string t pyval).

(** The attributes every Python object inherits from [object]
    ([__class__], [__getattribute__], [__setattr__], [__delattr__],
    [__sizeof__], ...): whether a name is one of them, and what calling it
    does to the instance. *)
Class ObjectBase : Type := {
  base_hasattr : string -> bool;
  base_invoke : string -> list pyval -> M string t pyval
}.

(** The inherited attributes that are data descriptors of the class: an
    attribute lookup finds them before it looks into the instance
    dictionary. *)
Definition data_descriptors : list string := ["__class__"; "__dict__"; "__weakref__"].

Definition is_data_descriptor (n : string) : bool :=
  existsb (String.eqb n) data_descriptors.

(** The [AttributeError] of reading an attribute that neither the
    instance nor the class has. *)
Definition no_attribute (k : string) : pyexc :=
  {| exc_kind_of := AttributeError;
     exc_str := "'NotifyPlugin' object has no attribute '" +:+ k +:+ "'" |}.

Section Methods.
Context `{Runtime}.

(** [self.k], for a name the class does not define: the entry of the
    instance dictionary. *)
Definition self_attr (k : string) : M string t pyval :=
  self ← get;
  match attr_get self k with
  | Some v => mret v
  | None => raise (no_attribute k)
  end.

Definition _debug (message : pyval) : M string t pyval :=
  name ← self_attr "name";
  emit ("[" +:+ py_str name +:+ "] " +:+ py_str message);;
  mret PNone.

(** The call [self._debug(message)]: the attribute is looked up on the
    instance, where an entry of the dictionary hides the method of the
    class; such an entry is not callable. *)
Definition self_debug (message : pyval) : M string t pyval :=
  self ← get;
  match attr_get self "_debug" with
  | Some v => raise (exc_of_fault (NotCallable v))
  | None => _debug message
  end.

Definition __init__ : M string t pyval :=
  modify (attr_set "name" (PStr "python-notify"));;
  modify (attr_set "version" (PStr "1.0.0"));;
  modify (attr_set "plugin_type" (PStr "notify"));;
  modify (attr_set "description" (PStr "Python 通知插件示例"));;
  modify (attr_set "config" (PDict []));;
  self_debug (PStr "插件实例已创建");;
  mret PNone.

Definition Name : M string t pyval :=
  self_debug (PStr "Name() 被调用");;
  self_attr "name".

Definition Description : M string t pyval :=
  self_debug (PStr "Description() 被调用");;
  self_attr "description".

Definition Version : M string t pyval :=
  self_debug (PStr "Version() 被调用");;
  self_attr "version".

Definition Type_ : M string t pyval :=
  self_debug (PStr "Type() 被调用");;
  self_attr "plugin_type".

(** [if isinstance(x, bytes): x = x.decode('utf-8')]. *)
Definition decode_if_bytes (x : pyval) : M string t pyval :=
  match x with
  | PBytes b => s ← eval (decode_utf8 b); mret (PStr s)
  | _ => mret x
  end.

(** The [except Exception as e] clause shared by the operations: build
    the message, print it, return it. *)
Definition report (pfx : string) (e : pyexc) : M string t pyval :=
  let error_msg := pfx +:+ exc_str e in
  self_debug (PStr error_msg);;
  mret (PStr error_msg).

Definition Init (config_json : pyval) : M string t pyval :=
  try_except
    (self_debug (PStr ("Init() 被调用，配置: " +:+ py_str config_json));;
     (if truthy config_json then
        config_json ← decode_if_bytes config_json;
        cfg ← eval (json_loads_val config_json);
        modify (attr_set "config" cfg);;
        config ← self_attr "config";
        self_debug (PStr ("配置解析成功: " +:+ py_str config))
      else mret PNone);;
     self_debug (PStr "插件初始化成功");;
     mret PNone)
    (fun e =>
       if is_JSONDecodeError e then Some (report "配置解析失败: " e)
       else if is_Exception e then Some (report "初始化失败: " e)
       else None).

Definition Cleanup : M string t pyval :=
  try_except
    (self_debug (PStr "Cleanup() 被调用");;
     self_debug (PStr "插件清理成功");;
     mret PNone)
    (fun e => if is_Exception e then Some (report "清理失败: " e) else None).

Definition Send (message_json opts_json : pyval) : M string t pyval :=
  try_except
    (self_debug (PStr "Send() 被调用");;
     message_json ← decode_if_bytes message_json;
     message ← (if truthy message_json then eval (json_loads_val message_json)
                else mret (PStr EmptyString));
     self_debug (PStr ("发送消息: " +:+ py_str message));;
     self_debug (PStr "消息发送成功");;
     mret PNone)
    (fun e => if is_Exception e then Some (report "发送消息失败: " e) else None).

Definition SendTemplate (template data_json opts_json : pyval) : M string t pyval :=
  try_except
    (self_debug (PStr "SendTemplate() 被调用");;
     data_json ← decode_if_bytes data_json;
     data ← (if truthy data_json then eval (json_loads_val data_json)
             else mret (PDict []));
     self_debug (PStr ("发送模板消息: 模板=" +:+ py_str template +:+ ", 数据=" +:+ py_str data));;
     self_debug (PStr "模板消息发送成功");;
     mret PNone)
    (fun e => if is_Exception e then Some (report "发送模板消息失败: " e) else None).

Definition SendBatch (messages_json opts_json : pyval) : M string t pyval :=
  try_except
    (self_debug (PStr "SendBatch() 被调用");;
     messages_json ← decode_if_bytes messages_json;
     messages ← (if truthy messages_json then eval (json_loads_val messages_json)
                 else mret (PList []));
     n ← eval (py_len messages);
     self_debug (PStr ("批量发送 " +:+ pretty n +:+ " 条消息"));;
     self_debug (PStr "批量消息发送成功");;
     mret PNone)
    (fun e => if is_Exception e then Some (report "批量发送消息失败: " e) else None).

(** The methods of the class. *)
Definition members : list (string * member) :=
  [ ("__init__", Method0 __init__);
    ("_debug", Method1 _debug);
    ("Name", Method0 Name);
    ("Description", Method0 Description);
    ("Version", Method0 Version);
    ("Type", Method0 Type_);
    ("Init", Method1 Init);
    ("Cleanup", Method0 Cleanup);
    ("Send", Method2 Send);
    ("SendTemplate", Method3 SendTemplate);
    ("SendBatch", Method2 SendBatch) ].

Fixpoint lookup_member (ms : list (string * member)) (n : string) : option member :=
  match ms with
  | [] => None
  | (k, m) :: ms' => if String.eqb k n then Some m else lookup_member ms' n
  end.

(** The operations of the plugin interface: the methods the source
    places under its two interface headings (the basic interface and the
    notify interface). *)
Definition operations : list string :=
  [ "Name"; "Description"; "Version"; "Type"; "Init"; "Cleanup";
    "Send"; "SendTemplate"; "SendBatch" ].

(** Calling a method with positional arguments. *)
Definition call_member (n : string) (m : member) (args : list pyval) : M string t pyval :=
  match m, args with
  | Method0 body, [] => body
  | Method1 body, [a] => body a
  | Method2 body, [a; b] => body a b
  | Method3 body, [a; b; c] => body a b c
  | Method0 _, _ => raise (exc_of_fault (BadArity n 0 (length args)))
  | Method1 _, _ => raise (exc_of_fault (BadArity n 1 (length args)))
  | Method2 _, _ => raise (exc_of_fault (BadArity n 2 (length args)))
  | Method3 _, _ => raise (exc_of_fault (BadArity n 3 (length args)))
  end.

Context `{ObjectBase}.

(** [getattr(plugin, n)] applied to [args]. The lookup takes a data
    descriptor of the class first, then the entry of the instance
    dictionary, which hides a method of the same name and cannot be called,
    then the method of the class, then what [object] gives. *)
Definition call_attribute (n : string) (args : list pyval) : M string t pyval :=
  if is_data_descriptor n then base_invoke n args
  else
    self ← get;
    match attr_get self n with
    | Some v => raise (exc_of_fault (NotCallable v))
    | None =>
        match lookup_member members n with
        | Some m => call_member n m args
        | None => base_invoke n args
        end
    end.

(** [hasattr(plugin, n)]. *)
Definition has_attribute (self : t) (n : string) : bool :=
  if is_data_descriptor n then base_hasattr n
  else
    match attr_get self n with
    | Some _ => true
    | None =>
        match lookup_member members n with
        | Some _ => true
        | None => base_hasattr n
        end
    end.

#[export] Instance plugin_object : PluginObject t := {
  hasattr := has_attribute;
  invoke := call_attribute
}.

End Methods.

End NotifyPlugin.

(** ** The operating system, as the process meets it *)

(** One [recv] on the accepted connection: the bytes it returns (empty when
    the peer has closed) or the exception it raises, and what [sendall] does
    if the iteration gets to send a response ([None]: it completes). *)
Record read_event : Type := ReadEvent {
  recv_result : pyexc + string;
  send_result : option pyexc
}.

(** Everything the process gets from outside: the environment variables,
    the outcome of each socket call of the set-up ([None]: it succeeds), the
    bound address, the outcome of [accept] ([None]: no connection ever
    arrives), and the reads on the accepted connection. *)
Record os_env : Type := OsEnv {
  environ : gmap string string;
  os_socket : option pyexc;
  os_setsockopt : option pyexc;
  os_bind : option pyexc;
  os_listen : option pyexc;
  os_sockname : string * Z;
  os_accept : option (pyexc + pyval);
  os_reads : list read_event
}.

(** A socket call of the set-up: it completes, or it raises. *)
Definition sys {S} (call : syscall) (r : option pyexc) : M action S unit :=
  match r with
  | None => emit (Sys call true)
  | Some e => emit (Sys call false);; raise e
  end.

(** ** class SimpleRPCServer *)

Module SimpleRPCServer.

(** A socket object: open, or closed. *)
Inductive sock : Type := SockOpen | SockClosed.

Record t (P : Type) : Type := Build {
  plugin : P;
  server_socket : option sock;
  client_socket : option sock;
  running : bool
}.
Arguments Build {P} _ _ _ _.
Arguments plugin {P} _.
Arguments server_socket {P} _.
Arguments client_socket {P} _.
Arguments running {P} _.

(** What an iteration of the request loop ends with: on to the next
    iteration ([continue], or the end of the body), or [break]. *)
Inductive ctl : Type := Next | Break.

Section Methods.
Context {P : Type} `{PluginObject P} `{Runtime}.

Definition set_plugin (p : P) (self : t P) : t P :=
  Build p (server_socket self) (client_socket self) (running self).
Definition set_server_socket (x : option sock) (self : t P) : t P :=
  Build (plugin self) x (client_socket self) (running self).
Definition set_client_socket (x : option sock) (self : t P) : t P :=
  Build (plugin self) (server_socket self) x (running self).
Definition set_running (b : bool) (self : t P) : t P :=
  Build (plugin self) (server_socket self) (client_socket self) b.

(** A call into the plugin object held by the server. *)
Definition on_plugin {A} (m : M string P A) : M action (t P) A :=
  zoom plugin set_plugin Stderr m.

Definition __init__ : M action (t P) unit :=
  modify (fun self => Build (plugin self) None None false).

Definition _debug (message : string) : M action (t P) unit :=
  emit (Stderr ("[RPC] " +:+ message)).

(** The last dot-separated segment of a text. *)
Definition segment (s : string) : string :=
  List.last (Text.split_on "." s) EmptyString.

(** [method.split('.')[-1]]. *)
Definition last_segment (method : pyval) : pyexc + string :=
  match method with
  | PStr s => inr (segment s)
  | PBytes _ => inl (exc_of_fault (BytesLikeRequired "split"))
  | _ => inl (exc_of_fault (NoAttribute method "split"))
  end.

(** [result.startswith(marker)] for a text [marker]. *)
Definition startswith (result : pyval) (marker : string) : pyexc + bool :=
  match result with
  | PStr s => inr (String.prefix marker s)
  | PBytes _ => inl (exc_of_fault (BytesLikeRequired "startswith"))
  | _ => inl (exc_of_fault (NoAttribute result "startswith"))
  end.

(** The condition of the [if] that classifies the result. [and] binds
    tighter than [or], so the source reads
    [result is None or ((isinstance(result, str) and
    result.startswith(m1)) or result.startswith(m2))]: the second
    [startswith] is evaluated whenever the first conjunction is false,
    whatever the type of [result]. *)
Definition is_error_result (result : pyval) : pyexc + bool :=
  if is_None result then inr true
  else
    match (if is_str result then startswith result "错误" else inr false) with
    | inl e => inl e
    | inr true => inr true
    | inr false => startswith result "失败"
    end.

(** The message built in the [except] clause of [_call_method]. *)
Definition call_failed (e : pyexc) : string :=
  "调用方法失败: " +:+ exc_str e +:+ Text.newline +:+ format_exc e.

(** The answer for a name the plugin object has no attribute for. *)
Definition not_found (method_name : string) : string :=
  "方法 " +:+ method_name +:+ " 不存在".

(** [_call_method] once the name is known to be an attribute: fetch it,
    call it with the unpacked parameters, classify what it returns. *)
Definition call_resolved (method_name : string) (params : pyval)
    : M action (t P) (pyval * pyval) :=
  args ← eval (unpack params);
  result ← on_plugin (invoke method_name args);
  is_error ← eval (is_error_result result);
  if is_error : bool then mret (PNone, result) else mret (result, PNone).

(** The [try] block of [_call_method]. *)
Definition call_method_try (method params : pyval) : M action (t P) (pyval * pyval) :=
  method_name ← eval (last_segment method);
  self ← get;
  if negb (hasattr (plugin self) method_name) then
    mret (PNone, PStr (not_found method_name))
  else call_resolved method_name params.

(** Its [except Exception as e] clause. *)
Definition call_method_except (e : pyexc) : option (M action (t P) (pyval * pyval)) :=
  if is_Exception e then
    Some (let error_msg := call_failed e in
          _debug error_msg;;
          mret (PNone, PStr error_msg))
  else None.

Definition _call_method (method params : pyval) : M action (t P) (pyval * pyval) :=
  try_except (call_method_try method params) call_method_except.

Definition recv (ev : read_event) : M action (t P) string :=
  match recv_result ev with
  | inr data => emit (Sys (Recv data) true);; mret data
  | inl e => emit (Sys (Recv EmptyString) false);; raise e
  end.

Definition sendall (ev : read_event) (data : string) : M action (t P) unit :=
  sys (Sendall data) (send_result ev).

(** [request.get(key, default)]: only a dictionary has [get]. *)
Definition request_get (request : pyval) (key : string) (default : pyval) : pyexc + pyval :=
  match request with
  | PDict d => inr (dict_get d key default)
  | _ => inl (exc_of_fault (NoAttribute request "get"))
  end.

(** The response dictionary. Its encoding, [json.dumps(response)], is
    ASCII text, on which [.encode('utf-8')] changes nothing: the payload
    handed to [sendall] is [json_dumps (response ...)]. *)
Definition response (req_id result error : pyval) : pyval :=
  PDict [("jsonrpc", PStr "2.0"); ("id", req_id); ("result", result); ("error", error)].

(** The inner [try]: decode and parse the request; on a
    [JSONDecodeError], log and [continue] (the answer [None]). *)
Definition parse_request (data : string) : M action (t P) (option pyval) :=
  try_except
    (text ← eval (decode_utf8 data);
     request ← eval (json_loads text);
     mret (Some request))
    (fun e =>
       if is_JSONDecodeError e then
         Some (_debug ("无法解析请求: " +:+ py_str (PBytes (String.substring 0 100 data)));;
               mret None)
       else None).

(** The body of the [while] loop, for the read [ev]. *)
Definition handle_request (ev : read_event) : M action (t P) ctl :=
  try_except
    (data ← recv ev;
     if String.eqb data EmptyString then
       _debug "连接关闭";; mret Break
     else
       parsed ← parse_request data;
       match parsed with
       | None => mret Next
       | Some request =>
           method ← eval (request_get request "method" (PStr EmptyString));
           params ← eval (request_get request "params" (PList []));
           req_id ← eval (request_get request "id" (PInt 0));
           _debug ("收到请求: method=" +:+ py_str method +:+ ", params=" +:+ py_str params);;
           r ← _call_method method params;
           let response_data := json_dumps (response req_id (fst r) (snd r)) in
           sendall ev response_data;;
           _debug "响应已发送";;
           mret Next
       end)
    (fun e =>
       if is_ConnectionResetError e then
         Some (_debug "连接被重置";; mret Break)
       else if is_Exception e then
         Some (_debug ("处理请求错误: " +:+ exc_str e);;
               emit (Stderr (format_exc e));;
               mret Break)
       else None).

(** The request loop. When the reads are used up, [recv] blocks. *)
Fixpoint _handle_requests (reads : list read_event) : M action (t P) unit :=
  self ← get;
  if running self then
    match reads with
    | [] => hang
    | ev :: reads' =>
        c ← handle_request ev;
        match c with
        | Next => _handle_requests reads'
        | Break => mret tt
        end
    end
  else mret tt.

Definition stop : M action (t P) unit :=
  modify (set_running false);;
  self ← get;
  (match client_socket self with
   | Some _ => emit (Sys CloseClient true);; modify (set_client_socket (Some SockClosed))
   | None => mret tt
   end);;
  (match server_socket self with
   | Some _ => emit (Sys CloseServer true);; modify (set_server_socket (Some SockClosed))
   | None => mret tt
   end);;
  _debug "服务器已停止".

(** [accept()]: a connection and the peer address, an exception, or no
    return. *)
Definition accept (r : option (pyexc + pyval)) : M action (t P) pyval :=
  match r with
  | None => hang
  | Some (inr addr) => emit (Sys Accept true);; mret addr
  | Some (inl e) => emit (Sys Accept false);; raise e
  end.

(** The handshake line for the bound address. *)
Definition handshake (host : string) (port : Z) : string :=
  "1|2|tcp|" +:+ host +:+ ":" +:+ pretty port +:+ "|grpc" +:+ Text.newline.

Definition start (os : os_env) : M action (t P) unit :=
  finally
    (try_except
       (sys Socket (os_socket os);;
        modify (set_server_socket (Some SockOpen));;
        sys Setsockopt (os_setsockopt os);;
        sys Bind (os_bind os);;
        sys Listen (os_listen os);;
        emit (Sys Getsockname true);;
        let '(host, port) := os_sockname os in
        emit (Stdout (handshake host port));;
        _debug ("服务器启动在 " +:+ host +:+ ":" +:+ pretty port);;
        _debug "等待客户端连接...";;
        addr ← accept (os_accept os);
        modify (set_client_socket (Some SockOpen));;
        _debug ("客户端已连接: " +:+ py_str addr);;
        modify (set_running true);;
        _handle_requests (os_reads os))
       (fun e =>
          if is_Exception e then
            Some (_debug ("服务器错误: " +:+ exc_str e);; raise e)
          else None))
    stop.

End Methods.

End SimpleRPCServer.

(** ** The process *)

Definition sys_exit (code : Z) : pyexc :=
  {| exc_kind_of := SystemExit code; exc_str := pretty code |}.

Definition check_environment {S} (environ : gmap string string) : M action S unit :=
  let magic_cookie := environ !! "ARCADE_RPC_PLUGIN" in
  (if bool_decide (magic_cookie = Some "arcade-rpc-plugin-protocol") then mret tt
   else
     emit (Stderr "错误: 环境变量 ARCADE_RPC_PLUGIN 不正确");;
     emit (Stderr "提示: 此插件必须由 Arcade 主程序启动");;
     raise (sys_exit 1));;
  let protocol_versions := default "1" (environ !! "PLUGIN_PROTOCOL_VERSIONS") in
  if Text.contains "2" protocol_versions then mret tt
  else
    emit (Stderr "错误: 不支持的协议版本");;
    raise (sys_exit 1).

Section Main.
Context `{Runtime} `{NotifyPlugin.ObjectBase}.

#[local] Existing Instance NotifyPlugin.plugin_object.

Abbreviation process := (SimpleRPCServer.t NotifyPlugin.t).

(** The state before [main] has built its two objects: the new instance
    has an empty dictionary, which [__init__] fills. *)
Definition unborn : process := SimpleRPCServer.Build [] None None false.

Definition main (os : os_env) : M action process unit :=
  emit (Stderr "[Main] Python 插件启动中...");;
  check_environment (environ os);;
  SimpleRPCServer.on_plugin NotifyPlugin.__init__;;
  SimpleRPCServer.__init__;;
  finally
    (try_except
       (SimpleRPCServer.start os)
       (fun e =>
          if is_KeyboardInterrupt e then
            Some (emit (Stderr "[Main] 收到中断信号"))
          else if is_Exception e then
            Some (emit (Stderr ("[Main] 错误: " +:+ exc_str e));;
                  emit (Stderr (format_exc e));;
                  raise (sys_exit 1))
          else None))
    (SimpleRPCServer.on_plugin (invoke "Cleanup" []);; mret tt).

(** A run of the process: what [main] does from the initial state. *)
Definition run_main (os : os_env) : step action process unit := main os unborn.

(** The exit status of a run that ends: 0 when [main] returns, the code of
    a [SystemExit], 1 for any other exception that leaves [main]. *)
Definition exit_code (r : step action process unit) : option Z :=
  match res r with
  | Ret _ => Some 0
  | Raise e => match exc_kind_of e with SystemExit c => Some c | _ => Some 1 end
  | Hang => None
  end.

End Main.

(** ** A small runtime to run the model on concrete inputs *)

(** The theorems below hold for every [Runtime]. To evaluate the model on
    concrete requests one is needed: this one reads and writes a subset of
    JSON (no floats, no unicode escapes, text written as it is), words the
    interpreter faults along the lines of CPython's messages, and renders a
    traceback as its first and last line, without the stack frames (which
    depend on where the script is installed). *)
Module Sample.

Definition dq : ascii := "034"%char.
Definition backslash : ascii := "092"%char.

(** [s] between double quotes. *)
Definition quoted (s : string) : string :=
  String dq (s +:+ String dq EmptyString).

Definition is_ws (c : ascii) : bool :=
  Text.byte_in 32 32 c || Text.byte_in 9 10 c || Text.byte_in 13 13 c.

Definition is_digit (c : ascii) : bool := Text.byte_in 48 57 c.

Fixpoint skip_ws (s : string) : string :=
  match s with
  | String c s' => if is_ws c then skip_ws s' else s
  | EmptyString => s
  end.

Fixpoint read_digits (acc : Z) (s : string) : Z * string :=
  match s with
  | String c s' =>
      if is_digit c then read_digits (10 * acc + (Z.of_N (N_of_ascii c) - 48)) s'
      else (acc, s)
  | EmptyString => (acc, s)
  end.

(** The character an escape letter stands for. *)
Definition unescape (c : ascii) : option ascii :=
  if Ascii.eqb c dq then Some dq
  else if Ascii.eqb c backslash then Some backslash
  else if Ascii.eqb c "/" then Some "/"%char
  else if Ascii.eqb c "n" then Some "010"%char
  else if Ascii.eqb c "t" then Some "009"%char
  else if Ascii.eqb c "r" then Some "013"%char
  else None.

(** The text after an opening quote, up to the closing one. *)
Fixpoint read_text (s : string) : option (string * string) :=
  match s with
  | EmptyString => None
  | String c s' =>
      if Ascii.eqb c dq then Some (EmptyString, s')
      else if Ascii.eqb c backslash then
        match s' with
        | String e s'' =>
            match unescape e, read_text s'' with
            | Some ch, Some (t, r) => Some (String ch t, r)
            | _, _ => None
            end
        | EmptyString => None
        end
      else if Text.byte_in 0 31 c then None
      else
        match read_text s' with
        | Some (t, r) => Some (String c t, r)
        | None => None
        end
  end.

Definition read_keyword (kw : string) (v : pyval) (s : string) : option (pyval * string) :=
  if String.prefix kw s
  then Some (v, String.substring (String.length kw) (String.length s) s)
  else None.

Fixpoint read_value (fuel : nat) (s : string) : option (pyval * string) :=
  match fuel with
  | O => None
  | S fuel' =>
      match skip_ws s with
      | EmptyString => None
      | String c r as s1 =>
          if Ascii.eqb c dq then
            match read_text r with
            | Some (t, r') => Some (PStr t, r')
            | None => None
            end
          else if Ascii.eqb c "[" then
            match skip_ws r with
            | String c2 r2 =>
                if Ascii.eqb c2 "]" then Some (PList [], r2)
                else match read_items fuel' r with
                     | Some (l, r') => Some (PList l, r')
                     | None => None
                     end
            | EmptyString => None
            end
          else if Ascii.eqb c "{" then
            match skip_ws r with
            | String c2 r2 =>
                if Ascii.eqb c2 "}" then Some (PDict [], r2)
                else match read_members fuel' r with
                     | Some (d, r') => Some (PDict d, r')
                     | None => None
                     end
            | EmptyString => None
            end
          else if Ascii.eqb c "-" then
            match r with
            | String c2 _ =>
                if is_digit c2 then
                  let '(z, r') := read_digits 0 r in Some (PInt (- z), r')
                else None
            | EmptyString => None
            end
          else if is_digit c then
            let '(z, r') := read_digits 0 s1 in Some (PInt z, r')
          else if Ascii.eqb c "n" then read_keyword "null" PNone s1
          else if Ascii.eqb c "t" then read_keyword "true" (PBool true) s1
          else if Ascii.eqb c "f" then read_keyword "false" (PBool false) s1
          else None
      end
  end
with read_items (fuel : nat) (s : string) : option (list pyval * string) :=
  match fuel with
  | O => None
  | S fuel' =>
      match read_value fuel' s with
      | Some (v, r) =>
          match skip_ws r with
          | String c r' =>
              if Ascii.eqb c "," then
                match read_items fuel' r' with
                | Some (l, r'') => Some (v :: l, r'')
                | None => None
                end
              else if Ascii.eqb c "]" then Some ([v], r')
              else None
          | EmptyString => None
          end
      | None => None
      end
  end
with read_members (fuel : nat) (s : string) : option (list (string * pyval) * string) :=
  match fuel with
  | O => None
  | S fuel' =>
      match skip_ws s with
      | String c r =>
          if Ascii.eqb c dq then
            match read_text r with
            | Some (k, r1) =>
                match skip_ws r1 with
                | String c1 r2 =>
                    if Ascii.eqb c1 ":" then
                      match read_value fuel' r2 with
                      | Some (v, r3) =>
                          match skip_ws r3 with
                          | String c3 r4 =>
                              if Ascii.eqb c3 "," then
                                match read_members fuel' r4 with
                                | Some (d, r5) => Some ((k, v) :: d, r5)
                                | None => None
                                end
                              else if Ascii.eqb c3 "}" then Some ([(k, v)], r4)
                              else None
                          | EmptyString => None
                          end
                      | None => None
                      end
                    else None
                | EmptyString => None
                end
            | None => None
            end
          else None
      | EmptyString => None
      end
  end.

Definition decode_error : pyexc :=
  {| exc_kind_of := JSONDecodeError; exc_str := "Expecting value" |}.

Definition loads (s : string) : pyexc + pyval :=
  match read_value (2 * String.length s + 2) s with
  | Some (v, r) =>
      match skip_ws r with
      | EmptyString => inr v
      | _ => inl decode_error
      end
  | None => inl decode_error
  end.

Fixpoint escape (s : string) : string :=
  match s with
  | EmptyString => EmptyString
  | String c s' =>
      if Ascii.eqb c dq then String backslash (String dq (escape s'))
      else if Ascii.eqb c backslash then String backslash (String backslash (escape s'))
      else if Ascii.eqb c "010" then String backslash (String "n" (escape s'))
      else String c (escape s')
  end.

(** [sep.join(render(x) for x in l)]. *)
Definition join {A} (render : A -> string) (sep : string) : list A -> string :=
  fix go (l : list A) : string :=
    match l with
    | [] => EmptyString
    | [x] => render x
    | x :: l' => render x +:+ sep +:+ go l'
    end.

Fixpoint dumps (v : pyval) : string :=
  match v with
  | PNone => "null"
  | PBool true => "true"
  | PBool false => "false"
  | PInt z => pretty z
  | PFloat _ => "NaN"
  | PStr s | PBytes s => quoted (escape s)
  | PList l | PTuple l => "[" +:+ join dumps ", " l +:+ "]"
  | PDict d =>
      "{" +:+ join (fun kv => quoted (escape (fst kv)) +:+ ": " +:+ dumps (snd kv)) ", " d +:+ "}"
  end.

Fixpoint repr (v : pyval) : string :=
  match v with
  | PNone => "None"
  | PBool true => "True"
  | PBool false => "False"
  | PInt z => pretty z
  | PFloat _ => "nan"
  | PStr s => "'" +:+ s +:+ "'"
  | PBytes s => "b'" +:+ s +:+ "'"
  | PList l => "[" +:+ join repr ", " l +:+ "]"
  | PTuple l => "(" +:+ join repr ", " l +:+ ")"
  | PDict d => "{" +:+ join (fun kv => "'" +:+ fst kv +:+ "': " +:+ repr (snd kv)) ", " d +:+ "}"
  end.

Definition fault_text (f : fault) : string :=
  match f with
  | NoAttribute owner attr =>
      "'" +:+ type_name owner +:+ "' object has no attribute '" +:+ attr +:+ "'"
  | BytesLikeRequired meth => "a bytes-like object is required, not 'str'"
  | NotIterable v => "Value after * must be an iterable, not " +:+ type_name v
  | NotCallable v => "'" +:+ type_name v +:+ "' object is not callable"
  | BadArity func expected given =>
      func +:+ "() takes " +:+ pretty (S expected) +:+ " positional arguments but "
      +:+ pretty (S given) +:+ " were given"
  | NotJsonInput v =>
      "the JSON object must be str, bytes or bytearray, not " +:+ type_name v
  | NoLen v => "object of type '" +:+ type_name v +:+ "' has no len()"
  | InvalidUtf8 _ => "'utf-8' codec can't decode bytes"
  end.

Definition kind_name (k : exc_kind) : string :=
  match k with
  | AttributeError => "AttributeError"
  | TypeError => "TypeError"
  | UnicodeDecodeError => "UnicodeDecodeError"
  | JSONDecodeError => "json.decoder.JSONDecodeError"
  | ConnectionResetError => "ConnectionResetError"
  | OSError => "OSError"
  | OtherException cls => cls
  | SystemExit _ => "SystemExit"
  | KeyboardInterrupt => "KeyboardInterrupt"
  end.

Definition traceback (e : pyexc) : string :=
  "Traceback (most recent call last):" +:+ Text.newline
  +:+ kind_name (exc_kind_of e) +:+ ": " +:+ exc_str e +:+ Text.newline.

Definition runtime : Runtime := {|
  py_repr := repr;
  json_loads := loads;
  json_dumps := dumps;
  fault_str := fault_text;
  format_exc := traceback
|}.

(** Three of the inherited attributes, as CPython 3.11 has them on an
    instance of a plain class: [__getattribute__], [__setattr__] and
    [__delattr__]. [__dict__] names the instance dictionary itself, which
    can be replaced by a dictionary and deleted (emptied). Where Python would
    hand out an object that is no [pyval] (a bound method, the class), this
    sample raises. *)
Definition type_error (msg : string) : pyexc := {| exc_kind_of := TypeError; exc_str := msg |}.

Definition not_writable (a : string) : pyexc :=
  {| exc_kind_of := AttributeError;
     exc_str := "attribute '" +:+ a +:+ "' of 'NotifyPlugin' objects is not writable" |}.

Definition bad_count (expected : nat) (args : list pyval) : pyexc :=
  type_error ((if Nat.eqb expected 1 then "expected 1 argument, got "
               else " expected " +:+ pretty expected +:+ " arguments, got ")
              +:+ pretty (length args)).

Definition bad_name (v : pyval) : pyexc :=
  type_error ("attribute name must be string, not '" +:+ type_name v +:+ "'").

Definition getattribute (args : list pyval) : M string NotifyPlugin.t pyval :=
  match args with
  | [PStr a] =>
      self ← get;
      if String.eqb a "__dict__" then mret (PDict self)
      else
        match NotifyPlugin.attr_get self a with
        | Some v => mret v
        | None => raise (NotifyPlugin.no_attribute a)
        end
  | [v] => raise (bad_name v)
  | _ => raise (bad_count 1 args)
  end.

Definition setattr (args : list pyval) : M string NotifyPlugin.t pyval :=
  match args with
  | [PStr a; v] =>
      if String.eqb a "__dict__" then
        match v with
        | PDict d => modify (fun _ => d);; mret PNone
        | _ => raise (type_error ("__dict__ must be set to a dictionary, not a '"
                                  +:+ type_name v +:+ "'"))
        end
      else if String.eqb a "__class__" then
        raise (type_error ("__class__ must be set to a class, not '"
                           +:+ type_name v +:+ "' object"))
      else if String.eqb a "__weakref__" then raise (not_writable a)
      else modify (NotifyPlugin.attr_set a v);; mret PNone
  | [n; _] => raise (bad_name n)
  | _ => raise (bad_count 2 args)
  end.

Definition delattr (args : list pyval) : M string NotifyPlugin.t pyval :=
  match args with
  | [PStr a] =>
      if String.eqb a "__dict__" then modify (fun _ => []);; mret PNone
      else if String.eqb a "__class__" then
        raise (type_error "can't delete __class__ attribute")
      else if String.eqb a "__weakref__" then raise (not_writable a)
      else
        self ← get;
        match NotifyPlugin.attr_get self a with
        | Some _ => modify (NotifyPlugin.attr_del a);; mret PNone
        | None => raise (NotifyPlugin.no_attribute a)
        end
  | [v] => raise (bad_name v)
  | _ => raise (bad_count 1 args)
  end.

Definition object_base : NotifyPlugin.ObjectBase := {|
  NotifyPlugin.base_hasattr n :=
    existsb (String.eqb n) ["__getattribute__"; "__setattr__"; "__delattr__"];
  NotifyPlugin.base_invoke n args :=
    if String.eqb n "__getattribute__" then getattribute args
    else if String.eqb n "__setattr__" then setattr args
    else if String.eqb n "__delattr__" then delattr args
    else raise (NotifyPlugin.no_attribute n)
|}.

(** The plugin as [NotifyPlugin()] leaves it, and the server built on it,
    with its connection accepted and the loop running. *)
Definition fields0 : NotifyPlugin.fields :=
  NotifyPlugin.Build "python-notify" "1.0.0" "notify" "Python 通知插件示例" (PDict []).

Definition plugin0 : NotifyPlugin.t := NotifyPlugin.instance fields0.

Definition serving : SimpleRPCServer.t NotifyPlugin.t :=
  SimpleRPCServer.Build plugin0
    (Some SimpleRPCServer.SockOpen) (Some SimpleRPCServer.SockOpen) true.

(** A request text: [{"method": m, "params": params, "id": id}]. *)
Definition request (m params : string) (id : Z) : string :=
  "{" +:+ quoted "method" +:+ ": " +:+ quoted m +:+ ", "
  +:+ quoted "params" +:+ ": " +:+ params +:+ ", "
  +:+ quoted "id" +:+ ": " +:+ pretty id +:+ "}".

(** A read that delivers [data], from a peer that takes the answer. *)
Definition incoming (data : string) : read_event :=
  {| recv_result := inr data; send_result := None |}.

End Sample.

Example sample_loads :
  Sample.loads (Sample.request "Plugin.Send" ("[" +:+ Sample.quoted "hello" +:+ ", null]") 1)
  = inr (PDict [("method", PStr "Plugin.Send"); ("params", PList [PStr "hello"; PNone]); ("id", PInt 1)]).
Proof. vm_compute. reflexivity. Qed.

Example sample_loads_bad : Sample.loads "{invalid json" = inl Sample.decode_error.
Proof. vm_compute. reflexivity. Qed.

Example sample_dumps :
  Sample.dumps (SimpleRPCServer.response (PInt 2) PNone (PStr "x"))
  = "{" +:+ Sample.quoted "jsonrpc" +:+ ": " +:+ Sample.quoted "2.0" +:+ ", "
    +:+ Sample.quoted "id" +:+ ": 2, " +:+ Sample.quoted "result" +:+ ": null, "
    +:+ Sample.quoted "error" +:+ ": " +:+ Sample.quoted "x" +:+ "}".
Proof. vm_compute. reflexivity. Qed.

(** * Verification *)

(** ** Proof tools *)

(** Unfold the monad operations and reduce the steps they build. *)
Ltac run :=
  cbv [mbind mret M_bind M_ret bind ret emit raise hang get modify eval
       try_except finally finally_outcome zoom sys after];
  cbn [res st out app fmap list_fmap fst snd negb].

(** Case analysis on the innermost stuck test of the goal. *)
Ltac split_head :=
  match goal with
  | |- context [match ?x with _ => _ end] =>
      lazymatch x with
      | context [match _ with _ => _ end] => fail
      | _ => destruct x eqn:?
      end
  end.

Ltac run_all := run; repeat (split_head; run).

(** ** Events and traces *)

Definition is_stderr (a : action) : Prop :=
  match a with Stderr _ => True | _ => False end.

Definition is_sys (a : action) : bool :=
  match a with Sys _ _ => true | _ => false end.

(** The socket calls of a trace, in order. *)
Definition socket_events (tr : list action) : list action := List.filter is_sys tr.

Lemma socket_events_app tr1 tr2 :
  socket_events (tr1 ++ tr2) = socket_events tr1 ++ socket_events tr2.
Proof. apply List.filter_app. Qed.

Lemma socket_events_cons a tr :
  socket_events (a :: tr) = if is_sys a then a :: socket_events tr else socket_events tr.
Proof. done. Qed.

Lemma socket_events_nil : socket_events [] = [].
Proof. done. Qed.

Ltac sock_simpl :=
  repeat (rewrite ?socket_events_cons, ?socket_events_app, ?socket_events_nil, ?app_nil_r;
          cbn [is_sys app]).

Lemma socket_events_stderr tr : Forall is_stderr tr -> socket_events tr = [].
Proof.
  induction 1 as [|a tr Ha _ IH]; [done|].
  destruct a; cbn in *; try done.
Qed.

Lemma Forall_stderr_fmap (l : list string) : Forall is_stderr (Stderr <$> l).
Proof. induction l; constructor; cbn; auto. Qed.

(** ** The method call *)

Section CallMethod.
Context {P : Type} `{PluginObject P} `{Runtime}.
Import SimpleRPCServer.

Definition null_or_text (v : pyval) : Prop := v = PNone \/ exists s, v = PStr s.

(** The fields of the server other than the plugin. *)
Definition same_sockets (s s' : t P) : Prop :=
  server_socket s' = server_socket s /\ client_socket s' = client_socket s
  /\ running s' = running s.

Lemma same_sockets_refl s : same_sockets s s.
Proof. by repeat split. Qed.

Lemma same_sockets_trans s1 s2 s3 :
  same_sockets s1 s2 -> same_sockets s2 s3 -> same_sockets s1 s3.
Proof. intros (?&?&?) (?&?&?). repeat split; congruence. Qed.

Lemma is_error_result_true result :
  is_error_result result = inr true -> null_or_text result.
Proof.
  destruct result; cbn; try discriminate; intros _; [left|right]; eauto.
Qed.

Lemma is_error_result_false result :
  is_error_result result = inr false -> exists s, result = PStr s.
Proof.
  destruct result; cbn; try discriminate; eauto.
  all: destruct (String.prefix _ _); cbn; discriminate.
Qed.

(** What every call of [_call_method] satisfies: it only prints to
    standard error, it leaves the sockets and the running flag alone, and
    it returns a pair of which each slot is [None] or a text, and at least
    one is [None]; only an exception outside [Exception] leaves it. *)
Definition call_method_post (s : t P) (r : step action (t P) (pyval * pyval)) : Prop :=
  Forall is_stderr (out r) /\ same_sockets s (st r) /\
  match res r with
  | Ret (v, e) => (v = PNone /\ null_or_text e) \/ (e = PNone /\ exists x, v = PStr x)
  | Raise ex => is_Exception ex = false
  | Hang => True
  end.

Lemma call_method_spec method params (s : t P) :
  call_method_post s (_call_method method params s).
Proof.
  unfold _call_method, call_method_try, call_resolved, call_method_except, on_plugin, _debug.
  pose proof Forall_stderr_fmap as Hf.
  assert (Ht : forall x, null_or_text (PStr x)) by (right; eauto).
  assert (Hs : forall p, same_sockets s (set_plugin p s)) by (intro; repeat split).
  pose proof (same_sockets_refl s) as Hs'.
  run_all.
  all: unfold call_method_post; run; rewrite ?app_nil_r.
  all: repeat split; auto.
  all: try (apply Forall_app; split; auto).
  all: try (repeat constructor; fail).
  all: try (left; split; [done|]; by apply is_error_result_true).
  all: try (right; split; [done|]; by apply is_error_result_false).
Qed.

(** The plugin's operations return or raise an [Exception]: none blocks
    for ever, none raises [SystemExit] or [KeyboardInterrupt]. *)
Definition returns_or_fails : Prop :=
  forall n args (p : P),
    match res (invoke n args p) with
    | Ret _ => True
    | Raise e => is_Exception e = true
    | Hang => False
    end.

Lemma fault_is_Exception f : is_Exception (exc_of_fault f) = true.
Proof. by destruct f. Qed.

Lemma last_segment_raises method e :
  last_segment method = inl e -> is_Exception e = true.
Proof. destruct method; cbn; intros [= <-]; apply fault_is_Exception. Qed.

Lemma unpack_raises params e : unpack params = inl e -> is_Exception e = true.
Proof. destruct params; cbn; intros [= <-]; apply fault_is_Exception. Qed.

Lemma is_error_result_raises result e :
  is_error_result result = inl e -> is_Exception e = true.
Proof.
  destruct result; cbn; try (intros [= <-]; apply fault_is_Exception).
  destruct (String.prefix _ _); cbn; discriminate.
Qed.

Lemma call_method_returns method params (s : t P) :
  returns_or_fails ->
  exists v e, res (_call_method method params s) = Ret (v, e).
Proof.
  intros Hwb.
  unfold _call_method, call_method_try, call_resolved, call_method_except, on_plugin, _debug.
  run_all; eauto.
  all: repeat match goal with
       | Hi : invoke ?n ?a ?p = _ |- _ =>
           let Hw := fresh in pose proof (Hwb n a p) as Hw; rewrite Hi in Hw; clear Hi; cbn in Hw
       | Hi : last_segment _ = inl _ |- _ => apply last_segment_raises in Hi
       | Hi : unpack _ = inl _ |- _ => apply unpack_raises in Hi
       | Hi : is_error_result _ = inl _ |- _ => apply is_error_result_raises in Hi
       end; try congruence; try done.
Qed.

End CallMethod.

(** ** One iteration of the request loop *)

Section HandleRequest.
Context {P : Type} `{PluginObject P} `{Runtime}.
Import SimpleRPCServer.

(** The payload of a response whose result and error slots are not both
    filled. *)
Definition is_response_payload (data : string) : Prop :=
  exists req_id result error,
    data = json_dumps (response req_id result error)
    /\ (result = PNone \/ error = PNone).

(** The events an iteration may produce: log lines, a read, and the sending
    of a response payload. *)
Definition loop_event (a : action) : Prop :=
  match a with
  | Stderr _ => True
  | Sys (Recv _) _ => True
  | Sys (Sendall data) _ => is_response_payload data
  | _ => False
  end.

Lemma stderr_loop_event tr : Forall is_stderr tr -> Forall loop_event tr.
Proof. intros Htr. eapply Forall_impl; [exact Htr|]. by intros []. Qed.

Lemma response_payload_intro req_id v e :
  (v = PNone /\ null_or_text e) \/ (e = PNone /\ exists x, v = PStr x) ->
  is_response_payload (json_dumps (response req_id v e)).
Proof. intros Hve. exists req_id, v, e. split; [done|]. tauto. Qed.

(** What every iteration satisfies. *)
Definition iteration_post (s : t P) (r : step action (t P) ctl) : Prop :=
  Forall loop_event (out r) /\ same_sockets s (st r) /\
  match res r with
  | Raise ex => is_Exception ex = false
  | _ => True
  end.

(** Case analysis on the call of [_call_method] at the head of the goal,
    with what is known about it. *)
Ltac split_call :=
  match goal with
  | |- context [_call_method ?m ?p ?s] =>
      generalize (call_method_spec m p s);
      destruct (_call_method m p s) as [[[??]|?|] ??];
      unfold call_method_post; run; intros (?&?&?)
  end.

Ltac solve_events :=
  repeat first
    [ apply Forall_nil_2
    | apply Forall_cons_2
    | apply Forall_app_2
    | by apply stderr_loop_event
    | by apply response_payload_intro
    | exact I ].

Lemma handle_request_spec ev (s : t P) : iteration_post s (handle_request ev s).
Proof.
  unfold handle_request, parse_request, recv, sendall, _debug.
  pose proof (same_sockets_refl s) as Hs.
  run.
  repeat (first [split_call | split_head]; run).
  all: unfold iteration_post; run; rewrite ?app_nil_r.
  all: split; [solve_events | split; [done | try done] ].
Qed.

(** Nothing but [break] or an exception ends the loop. *)
Lemma handle_request_no_hang ev (s : t P) :
  returns_or_fails -> res (handle_request ev s) <> Hang.
Proof.
  intros Hwb.
  unfold handle_request, parse_request, recv, sendall, _debug.
  run.
  repeat (first
    [ match goal with
      | |- context [_call_method ?m ?p ?s] =>
          destruct (call_method_returns m p s Hwb) as (?&?&?);
          destruct (_call_method m p s) as [? ? ?]; run; simplify_eq/=
      end
    | split_head]; run).
  all: done.
Qed.

End HandleRequest.

(** ** The request loop *)

Section Loop.
Context {P : Type} `{PluginObject P} `{Runtime}.
Import SimpleRPCServer.

Lemma handle_requests_spec reads (s : t P) :
  let r := _handle_requests reads s in
  Forall loop_event (out r) /\ same_sockets s (st r) /\
  match res r with
  | Raise ex => is_Exception ex = false
  | _ => True
  end.
Proof.
  revert s. induction reads as [|ev reads IH]; intros s; cbn [_handle_requests]; run.
  - destruct (running s); run; repeat split; constructor.
  - destruct (running s); run; [|repeat split; constructor].
    destruct (handle_request_spec ev s) as (Ho & Hs & Hr).
    destruct (handle_request ev s) as [[[|]|ex|] s1 o1]; run; cbn in Ho, Hs, Hr.
    + destruct (IH s1) as (Ho' & Hs' & Hr').
      destruct (_handle_requests reads s1) as [x s2 o2]; run; cbn in Ho', Hs', Hr'.
      split; [by apply Forall_app_2|]. split; [|done].
      by eapply same_sockets_trans.
    + rewrite app_nil_r. done.
    + done.
    + done.
Qed.

(** When the next read carries a request, the iteration answers it: here
    [data] holds a JSON object [d], and [_call_method] returns [(v, e)]. *)
Definition send_ok (ev : read_event) : bool :=
  match send_result ev with None => true | Some _ => false end.

Lemma handle_request_answer ev (s : t P) data d v e s' o :
  recv_result ev = inr data ->
  data <> EmptyString ->
  Text.utf8_valid data = true ->
  json_loads data = inr (PDict d) ->
  _call_method (dict_get d "method" (PStr EmptyString))
               (dict_get d "params" (PList [])) s = Step (Ret (v, e)) s' o ->
  let r := handle_request ev s in
  socket_events (out r) =
    [Sys (Recv data) true;
     Sys (Sendall (json_dumps (response (dict_get d "id" (PInt 0)) v e))) (send_ok ev)]
  /\ st r = s'
  /\ (send_result ev = None -> res r = Ret Next).
Proof.
  intros Hrecv Hdata Hutf Hjson Hcall.
  pose proof (call_method_spec (dict_get d "method" (PStr EmptyString))
                (dict_get d "params" (PList [])) s) as (Ho & _ & _).
  rewrite Hcall in Ho. cbn in Ho. apply socket_events_stderr in Ho.
  apply String.eqb_neq in Hdata.
  unfold handle_request, parse_request, recv, sendall, _debug, decode_utf8, request_get, send_ok.
  rewrite Hrecv. run. rewrite Hdata, Hutf. run. rewrite Hjson. run.
  rewrite Hcall. run.
  destruct (send_result ev) as [ex|]; run.
  - destruct (is_ConnectionResetError ex); run;
      [|destruct (is_Exception ex); run]; sock_simpl; by rewrite Ho.
  - sock_simpl. by rewrite Ho.
Qed.

End Loop.

(** ** The claims about the method call and the request loop *)

Section DispatchClaims.
Context {P : Type} `{PluginObject P} `{Runtime}.
Import SimpleRPCServer.

(** The read [ev] delivers the bytes [data], which decode and parse as the
    JSON object [d]. *)
Definition delivers_object (ev : read_event) (data : string) (d : list (string * pyval)) : Prop :=
  recv_result ev = inr data /\ data <> EmptyString
  /\ Text.utf8_valid data = true /\ json_loads data = inr (PDict d).

Definition method_of (d : list (string * pyval)) : pyval := dict_get d "method" (PStr EmptyString).
Definition params_of (d : list (string * pyval)) : pyval := dict_get d "params" (PList []).
Definition id_of (d : list (string * pyval)) : pyval := dict_get d "id" (PInt 0).

(** The socket events of an iteration that reads [data] and answers with
    [(result, error)]. *)
Definition exchange (ev : read_event) (data : string) (req_id result error : pyval) : list action :=
  [Sys (Recv data) true;
   Sys (Sendall (json_dumps (response req_id result error))) (send_ok ev)].

Lemma handle_request_exchange ev (s : t P) data d v e s' o :
  delivers_object ev data d ->
  _call_method (method_of d) (params_of d) s = Step (Ret (v, e)) s' o ->
  let r := handle_request ev s in
  socket_events (out r) = exchange ev data (id_of d) v e
  /\ st r = s'
  /\ (send_result ev = None -> res r = Ret Next).
Proof. intros (?&?&?&?) ?. by eapply handle_request_answer. Qed.

(** A send of the server carries a response of which the result and the
    error are not both set. *)
Definition well_formed_send (a : action) : Prop :=
  match a with
  | Sys (Sendall data) _ =>
      exists req_id result error,
        data = json_dumps (response req_id result error)
        /\ (result = PNone \/ error = PNone)
  | _ => True
  end.

(** C4: the pair [_call_method] returns never has both slots set, and every
    payload the request loop hands to [sendall] is the encoding of a response
    dictionary whose [result] and [error] are not both non-null. *)
Theorem C4_result_and_error_never_both_set
    (method params : pyval) (reads : list read_event) (s : t P) :
  match res (_call_method method params s) with
  | Ret (result, error) => result = PNone \/ error = PNone
  | _ => True
  end
  /\ Forall well_formed_send (out (_handle_requests reads s)).
Proof.
  split.
  - destruct (call_method_spec method params s) as (_ & _ & Hr).
    destruct (res (_call_method method params s)) as [[v e]| |]; [|done..].
    destruct Hr as [[-> _]|[-> _]]; auto.
  - destruct (handle_requests_spec reads s) as (Ho & _).
    eapply Forall_impl; [exact Ho|]. by intros [| |[]].
Qed.

(** C9: a request whose operation returns [None] is answered with a null
    result and a null error. *)
Theorem C9_none_result_gives_null_result_and_error
    ev (s : t P) data d n args p' o :
  delivers_object ev data d ->
  last_segment (method_of d) = inr n ->
  hasattr (plugin s) n = true ->
  unpack (params_of d) = inr args ->
  invoke n args (plugin s) = Step (Ret PNone) p' o ->
  res (_call_method (method_of d) (params_of d) s) = Ret (PNone, PNone)
  /\ socket_events (out (handle_request ev s)) = exchange ev data (id_of d) PNone PNone.
Proof.
  intros Hd Hn Hattr Hargs Hinv.
  assert (_call_method (method_of d) (params_of d) s
          = Step (Ret (PNone, PNone)) (set_plugin p' s) (Stderr <$> o)) as Hcall.
  { unfold _call_method, call_method_try, call_resolved, on_plugin.
    run. rewrite Hn. run. rewrite Hattr. run. rewrite Hargs. run. rewrite Hinv. run.
    cbn [is_error_result is_None]. run. by rewrite app_nil_r. }
  split; [by rewrite Hcall|].
  by destruct (handle_request_exchange ev s data d _ _ _ _ Hd Hcall) as (? & _).
Qed.

(** What [_call_method] does with a fault of class [Exception] raised in
    its [try] block. *)
Lemma call_method_raised method params (s : t P) ex s' o :
  call_method_try method params s = Step (Raise ex) s' o ->
  is_Exception ex = true ->
  _call_method method params s
  = Step (Ret (PNone, PStr (call_failed ex))) s' (o ++ [Stderr ("[RPC] " +:+ call_failed ex)]).
Proof.
  intros Htry Hex. unfold _call_method, try_except, call_method_except, _debug.
  rewrite Htry, Hex. by run.
Qed.

(** C2, as the code has it: a fault of class [Exception] raised while the
    method is resolved or invoked is turned into the error text
    [call_failed], which is the fault description followed by the full
    traceback; that text is printed to standard error and is also the
    [error] field of the response that is sent, with a null result. *)
Theorem C2_fault_is_answered_with_description_and_traceback
    ev (s : t P) data d ex s' o :
  delivers_object ev data d ->
  call_method_try (method_of d) (params_of d) s = Step (Raise ex) s' o ->
  is_Exception ex = true ->
  let error_msg := "调用方法失败: " +:+ exc_str ex +:+ Text.newline +:+ format_exc ex in
  _call_method (method_of d) (params_of d) s
  = Step (Ret (PNone, PStr error_msg)) s' (o ++ [Stderr ("[RPC] " +:+ error_msg)])
  /\ socket_events (out (handle_request ev s))
     = exchange ev data (id_of d) PNone (PStr error_msg)
  /\ (send_result ev = None -> res (handle_request ev s) = Ret Next).
Proof.
  intros Hd Htry Hex error_msg.
  pose proof (call_method_raised _ _ _ _ _ _ Htry Hex) as Hcall.
  split; [exact Hcall|].
  destruct (handle_request_exchange ev s data d _ _ _ _ Hd Hcall) as (? & _ & ?).
  done.
Qed.

(** C3, as the code has it: bytes that decode as UTF-8 and on which
    [json.loads] raises [JSONDecodeError] are logged and skipped; nothing is
    sent, the state is unchanged, and the loop goes on with the next read. *)
Theorem C3_undecodable_json_is_logged_and_skipped
    ev (reads : list read_event) (s : t P) data ex :
  recv_result ev = inr data ->
  data <> EmptyString ->
  Text.utf8_valid data = true ->
  json_loads data = inl ex ->
  is_JSONDecodeError ex = true ->
  let logged :=
    [Sys (Recv data) true;
     Stderr ("[RPC] " +:+ "无法解析请求: " +:+ py_str (PBytes (String.substring 0 100 data)))] in
  handle_request ev s = Step (Ret Next) s logged
  /\ (running s = true ->
      _handle_requests (ev :: reads) s = after logged (_handle_requests reads s)).
Proof.
  intros Hrecv Hdata Hutf Hjson Hex logged.
  apply String.eqb_neq in Hdata.
  assert (handle_request ev s = Step (Ret Next) s logged) as Hstep.
  { unfold handle_request, parse_request, recv, _debug, decode_utf8.
    rewrite Hrecv. run. rewrite Hdata, Hutf. run. rewrite Hjson. run.
    rewrite Hex. by run. }
  split; [done|]. intros Hrun.
  cbn [_handle_requests]. run. rewrite Hrun, Hstep. run.
  by destruct (_handle_requests reads s).
Qed.

(** C6, as the code has it: when the last dot-separated segment of the
    method is not an attribute of the plugin object, the response carries
    the not-found text as its error and a null result, the state is
    unchanged, and the loop goes on. *)
Theorem C6_name_that_is_no_attribute_is_reported
    ev (s : t P) data d n :
  delivers_object ev data d ->
  last_segment (method_of d) = inr n ->
  hasattr (plugin s) n = false ->
  _call_method (method_of d) (params_of d) s
  = Step (Ret (PNone, PStr ("方法 " +:+ n +:+ " 不存在"))) s []
  /\ socket_events (out (handle_request ev s))
     = exchange ev data (id_of d) PNone (PStr ("方法 " +:+ n +:+ " 不存在"))
  /\ st (handle_request ev s) = s
  /\ (send_result ev = None -> res (handle_request ev s) = Ret Next).
Proof.
  intros Hd Hn Hattr.
  assert (_call_method (method_of d) (params_of d) s
          = Step (Ret (PNone, PStr (not_found n))) s []) as Hcall.
  { unfold _call_method, call_method_try.
    run. rewrite Hn. run. rewrite Hattr. by run. }
  split; [exact Hcall|].
  by destruct (handle_request_exchange ev s data d _ _ _ _ Hd Hcall) as (? & ? & ?).
Qed.

(** What [_call_method] answers when the operation returns a text: the
    text is the result, unless it starts with one of the two failure
    markers, in which case it is the error. *)
Lemma call_method_text_value (s : t P) method params n args x p' o :
  last_segment method = inr n ->
  hasattr (plugin s) n = true ->
  unpack params = inr args ->
  invoke n args (plugin s) = Step (Ret (PStr x)) p' o ->
  res (_call_method method params s)
  = Ret (if String.prefix "错误" x || String.prefix "失败" x
         then (PNone, PStr x) else (PStr x, PNone)).
Proof.
  intros Hn Hattr Hargs Hinv.
  unfold _call_method, call_method_try, call_resolved, on_plugin.
  run. rewrite Hn. run. rewrite Hattr. run. rewrite Hargs. run. rewrite Hinv. run.
  cbn [is_error_result is_None is_str startswith].
  destruct (String.prefix "错误" x); run; [done|].
  destruct (String.prefix "失败" x); by run.
Qed.

(** C1, where the code departs from it: a value that is neither [None]
    nor a text makes the classification itself raise, so the call is
    answered with a null result and a call-failed error instead of the
    value. *)
Theorem C1_value_that_is_no_text_is_answered_as_failure
    (s : t P) method params n args v p' o :
  last_segment method = inr n ->
  hasattr (plugin s) n = true ->
  unpack params = inr args ->
  invoke n args (plugin s) = Step (Ret v) p' o ->
  is_None v = false ->
  is_str v = false ->
  exists ex,
    is_error_result v = inl ex
    /\ res (_call_method method params s) = Ret (PNone, PStr (call_failed ex)).
Proof.
  intros Hn Hattr Hargs Hinv Hnone Hstr.
  assert (exists ex, is_error_result v = inl ex) as [ex Hex].
  { destruct v; try discriminate; cbn; eauto. }
  exists ex. split; [done|].
  pose proof (is_error_result_raises _ _ Hex) as HE.
  unfold _call_method, call_method_try, call_resolved, on_plugin, call_method_except, _debug.
  run. rewrite Hn. run. rewrite Hattr. run. rewrite Hargs. run. rewrite Hinv. run.
  rewrite Hex. run. rewrite HE. by run.
Qed.

(** [d[key]], when the key is there. *)
Fixpoint dict_lookup (d : list (string * pyval)) (key : string) : option pyval :=
  match d with
  | [] => None
  | (k, v) :: d' => if String.eqb k key then Some v else dict_lookup d' key
  end.

Lemma dict_get_lookup d key default v :
  dict_lookup d key = Some v -> dict_get d key default = v.
Proof.
  induction d as [|[k x] d IH]; cbn; [done|].
  destruct (String.eqb k key); [congruence|done].
Qed.

(** A well-formed request with the id [req.2], arriving whole in the read
    [ev] as the bytes [req.1], from a peer that stays to take the answer. *)
Definition well_formed_read (ev : read_event) (req : string * pyval) : Prop :=
  exists d m ps,
    delivers_object ev req.1 d
    /\ dict_lookup d "method" = Some (PStr m)
    /\ dict_lookup d "params" = Some (PList ps)
    /\ dict_lookup d "id" = Some req.2
    /\ send_result ev = None.

(** The socket events of a session in which each request is read, then
    answered in full, before the next is read. *)
Fixpoint exchanges (reqs : list (string * pyval)) (answers : list (pyval * pyval)) : list action :=
  match reqs, answers with
  | (data, req_id) :: reqs', (result, error) :: answers' =>
      Sys (Recv data) true
      :: Sys (Sendall (json_dumps (response req_id result error))) true
      :: exchanges reqs' answers'
  | _, _ => []
  end.

(** C5: N well-formed requests, sent one at a time to a running loop
    whose plugin operations return or fail, get exactly N responses: the
    socket events are read 1, send 1, read 2, send 2, ..., each send complete
    and carrying the id of the request just read; after the last one the
    loop waits for the next request. *)
Theorem C5_one_response_per_request_in_order
    (reads : list read_event) (reqs : list (string * pyval)) (s : t P) :
  returns_or_fails ->
  running s = true ->
  Forall2 well_formed_read reads reqs ->
  exists answers : list (pyval * pyval),
    length answers = length reqs
    /\ socket_events (out (_handle_requests reads s)) = exchanges reqs answers
    /\ res (_handle_requests reads s) = Hang.
Proof.
  intros Hwb Hrun Hreqs. revert s Hrun.
  induction Hreqs as [|ev [data req_id] reads reqs Hreq _ IH]; intros s Hrun.
  - exists []. cbn [_handle_requests]. run. rewrite Hrun. by run.
  - destruct Hreq as (d & m & ps & Hd & _ & _ & Hid & Hsend). cbn in Hd, Hid.
    destruct (call_method_returns (method_of d) (params_of d) s Hwb) as (v & e & Hres).
    destruct (_call_method (method_of d) (params_of d) s) as [x s' o] eqn:Hcall.
    cbn in Hres. subst x.
    destruct (handle_request_exchange ev s data d _ _ _ _ Hd Hcall) as (Hev & Hst & Hnext).
    specialize (Hnext Hsend).
    destruct (handle_request_spec ev s) as (_ & (_ & _ & Hrun') & _).
    rewrite Hrun in Hrun'.
    destruct (IH _ Hrun') as (answers & Hlen & Hevs & Hhang).
    exists ((v, e) :: answers). split; [cbn; by rewrite Hlen|].
    cbn [_handle_requests]. run. rewrite Hrun.
    destruct (handle_request ev s) as [x s1 o1]. cbn [res st out] in *. subst x. run.
    destruct (_handle_requests reads s1) as [y s2 o2]. cbn [res st out] in *.
    split; [|done].
    rewrite socket_events_app, Hev, Hevs.
    unfold exchange, send_ok, id_of. rewrite Hsend.
    by rewrite (dict_get_lookup _ _ _ _ Hid).
Qed.

End DispatchClaims.

(** ** The shipped plugin *)

(** *** The instance dictionary *)

Lemma attr_get_set (k k' : string) (v : pyval) (self : NotifyPlugin.t) :
  NotifyPlugin.attr_get (NotifyPlugin.attr_set k v self) k'
  = if String.eqb k k' then Some v else NotifyPlugin.attr_get self k'.
Proof.
  induction self as [|[k0 v0] rest IH]; cbn.
  - done.
  - destruct (String.eqb k0 k) eqn:E0; cbn.
    + apply String.eqb_eq in E0. subst k0. by destruct (String.eqb k k').
    + destruct (String.eqb k0 k') eqn:E1; [|exact IH].
      apply String.eqb_eq in E1. subst k0.
      destruct (String.eqb k k') eqn:E2; [|done].
      apply String.eqb_eq in E2. subst k. by rewrite String.eqb_refl in E0.
Qed.

Lemma attr_get_del (k k' : string) (self : NotifyPlugin.t) :
  String.eqb k k' = false ->
  NotifyPlugin.attr_get (NotifyPlugin.attr_del k self) k' = NotifyPlugin.attr_get self k'.
Proof.
  intros Hk. induction self as [|[k0 v0] rest IH]; cbn; [done|].
  destruct (String.eqb k0 k) eqn:E0; cbn.
  - apply String.eqb_eq in E0. subst k0. by rewrite Hk.
  - by rewrite IH.
Qed.

(** Writing an attribute with the value it has changes nothing. *)
Lemma attr_set_same (k : string) (v : pyval) (self : NotifyPlugin.t) :
  NotifyPlugin.attr_get self k = Some v -> NotifyPlugin.attr_set k v self = self.
Proof.
  induction self as [|[k0 v0] rest IH]; cbn; [done|].
  destruct (String.eqb k0 k) eqn:E0.
  - apply String.eqb_eq in E0. by intros [= ->]; subst.
  - intros Hk. by rewrite IH.
Qed.

(** Resolve the attribute lookups on names and dictionaries that are
    written out. *)
Ltac resolve :=
  cbn [hasattr invoke NotifyPlugin.plugin_object];
  unfold NotifyPlugin.has_attribute, NotifyPlugin.call_attribute;
  cbn [NotifyPlugin.is_data_descriptor NotifyPlugin.data_descriptors existsb orb
       NotifyPlugin.lookup_member NotifyPlugin.members NotifyPlugin.call_member
       NotifyPlugin.attr_get NotifyPlugin.attr_set NotifyPlugin.instance
       String.eqb Ascii.eqb Bool.eqb].

Section NotifyPluginFacts.
Context `{Runtime} `{NotifyPlugin.ObjectBase}.
Import SimpleRPCServer.
#[local] Existing Instance NotifyPlugin.plugin_object.

Abbreviation process := (SimpleRPCServer.t NotifyPlugin.t).

Lemma set_plugin_same (s : process) : set_plugin (plugin s) s = s.
Proof. by destruct s. Qed.

(** The names of the instance attributes [__init__] sets. *)
Definition data_attributes : list string :=
  ["name"; "version"; "plugin_type"; "description"; "config"].

(** Every method of the class is found by [hasattr], whatever the
    instance dictionary holds. *)
Lemma defined_attribute_resolves (self : NotifyPlugin.t) (n : string) :
  n ∈ (NotifyPlugin.members).*1 -> hasattr self n = true.
Proof.
  intros Hn. cbn in Hn.
  repeat (apply elem_of_cons in Hn as [->|Hn];
          [cbn [hasattr NotifyPlugin.plugin_object]; unfold NotifyPlugin.has_attribute;
           match goal with
           | |- context [NotifyPlugin.is_data_descriptor ?k] =>
               change (NotifyPlugin.is_data_descriptor k) with false
           end;
           by destruct (NotifyPlugin.attr_get self _)|]).
  by apply elem_of_nil in Hn.
Qed.

(** So is every entry of the instance dictionary: on an instance as the
    class builds it, the five data attributes. *)
Lemma data_attribute_resolves (f : NotifyPlugin.fields) (n : string) :
  n ∈ data_attributes -> hasattr (NotifyPlugin.instance f) n = true.
Proof.
  intros Hn. unfold data_attributes in Hn.
  repeat (apply elem_of_cons in Hn as [->|Hn]; [reflexivity|]).
  by apply elem_of_nil in Hn.
Qed.

(** The helper [_debug], called through the server: on an instance
    whose dictionary does not hide it, it prints under the name the
    dictionary holds. *)
Lemma call_debug (s : process) (m text : string) (v : pyval) :
  segment m = "_debug" ->
  NotifyPlugin.attr_get (plugin s) "_debug" = None ->
  NotifyPlugin.attr_get (plugin s) "name" = Some v ->
  _call_method (PStr m) (PList [PStr text]) s
  = Step (Ret (PNone, PNone)) s [Stderr ("[" +:+ py_str v +:+ "] " +:+ text)].
Proof.
  intros Hm Hd Hn.
  unfold _call_method, call_method_try, call_resolved, on_plugin.
  cbn [last_segment unpack]. rewrite Hm.
  repeat progress (run; resolve; unfold NotifyPlugin._debug, NotifyPlugin.self_attr;
                   rewrite ?Hd, ?Hn).
  cbn [is_error_result is_None py_str]. run.
  by rewrite set_plugin_same.
Qed.

(** An entry of the instance dictionary, called through the server: found,
    then not callable. *)
Lemma call_data_attribute (s : process) (n : string) (v : pyval) :
  segment n = n ->
  NotifyPlugin.is_data_descriptor n = false ->
  NotifyPlugin.attr_get (plugin s) n = Some v ->
  _call_method (PStr n) (PList []) s
  = Step (Ret (PNone, PStr (call_failed (exc_of_fault (NotCallable v))))) s
      [Stderr ("[RPC] " +:+ call_failed (exc_of_fault (NotCallable v)))].
Proof.
  intros Hseg Hdd Hn.
  unfold _call_method, call_method_try, call_resolved, on_plugin, call_method_except, _debug.
  cbn [last_segment unpack]. rewrite Hseg. run.
  cbn [hasattr invoke NotifyPlugin.plugin_object].
  unfold NotifyPlugin.has_attribute, NotifyPlugin.call_attribute. rewrite Hdd, Hn. run.
  rewrite Hn. run. rewrite fault_is_Exception. run. by rewrite set_plugin_same.
Qed.

(** Lookups on an instance as the class builds it. *)
Lemma instance_lookups (f : NotifyPlugin.fields) :
  NotifyPlugin.attr_get (NotifyPlugin.instance f) "_debug" = None
  /\ NotifyPlugin.attr_get (NotifyPlugin.instance f) "name" = Some (PStr (NotifyPlugin.name f)).
Proof. by split. Qed.

(** C10: the name is resolved by [hasattr] alone. With the last segment
    of the method an attribute of the plugin object, [_call_method] goes on
    to call it; otherwise it answers not-found. Every attribute the source
    gives a [NotifyPlugin] is found, helpers and data attributes included:
    the methods of the class on every instance, the five data attributes
    on an instance as the class builds it. A data attribute is found and
    then fails to be called, and a request for [_debug] with one text
    parameter runs the helper (one line on standard error, under the name
    the instance holds) and is answered with a null result and a null
    error. The premises on the instance dictionary say that [_debug] is the
    method of the class and that [name] is set; [instance_lookups] gives
    them for every instance the class builds. *)
Theorem C10_resolution_is_attribute_lookup :
  (forall (P : Type) (PO : PluginObject P) (s : t P) (m : string) (params : pyval),
     _call_method (PStr m) params s
     = if hasattr (plugin s) (segment m)
       then try_except (call_resolved (segment m) params) call_method_except s
       else Step (Ret (PNone, PStr (not_found (segment m)))) s [])
  /\ (forall (self : NotifyPlugin.t) (n : string),
        n ∈ (NotifyPlugin.members).*1 -> hasattr self n = true)
  /\ (forall (f : NotifyPlugin.fields) (n : string),
        n ∈ data_attributes -> hasattr (NotifyPlugin.instance f) n = true)
  /\ (forall (s : process) (v : pyval),
        NotifyPlugin.attr_get (plugin s) "name" = Some v ->
        res (_call_method (PStr "name") (PList []) s)
        = Ret (PNone, PStr (call_failed (exc_of_fault (NotCallable v)))))
  /\ (forall (s : process) (m text : string) (v : pyval),
        segment m = "_debug" ->
        NotifyPlugin.attr_get (plugin s) "_debug" = None ->
        NotifyPlugin.attr_get (plugin s) "name" = Some v ->
        _call_method (PStr m) (PList [PStr text]) s
        = Step (Ret (PNone, PNone)) s [Stderr ("[" +:+ py_str v +:+ "] " +:+ text)])
  /\ (forall (s : process) ev data d (m text : string) (v : pyval),
        delivers_object ev data d ->
        method_of d = PStr m ->
        segment m = "_debug" ->
        params_of d = PList [PStr text] ->
        NotifyPlugin.attr_get (plugin s) "_debug" = None ->
        NotifyPlugin.attr_get (plugin s) "name" = Some v ->
        socket_events (out (handle_request ev s)) = exchange ev data (id_of d) PNone PNone).
Proof.
  split; [|split; [|split; [|split; [|split]]]].
  - intros P PO s m params.
    unfold _call_method, call_method_try. cbn [last_segment]. run.
    destruct (hasattr (plugin s) (segment m)); run; [|done].
    by destruct (call_resolved (segment m) params s) as [[?|?|] ? ?].
  - apply defined_attribute_resolves.
  - apply data_attribute_resolves.
  - intros s v Hn. by rewrite (call_data_attribute s "name" v).
  - apply call_debug.
  - intros s ev data d m text v Hd Hm Hseg Hp Hdbg Hn.
    pose proof (call_debug s m text v Hseg Hdbg Hn) as Hcall.
    rewrite <- Hm, <- Hp in Hcall.
    by destruct (handle_request_exchange ev s data d _ _ _ _ Hd Hcall) as (? & _).
Qed.

End NotifyPluginFacts.
(** ** Start-up: the credential check and the handshake *)

Section StartUp.
Context `{Runtime} `{NotifyPlugin.ObjectBase}.
Import SimpleRPCServer.
#[local] Existing Instance NotifyPlugin.plugin_object.

(** As the spec words the version check: the value of the variable is a
    list of versions, separated by commas or spaces, and a version is
    supported when it is one of the entries. The code has no such list: it
    tests whether the character occurs in the text. *)
Definition spec_listed_versions (value : string) : list string :=
  List.filter (fun v => negb (String.eqb v EmptyString))
    (concat (Text.split_on " " <$> Text.split_on "," value)).

Definition spec_version_listed (v value : string) : bool :=
  existsb (String.eqb v) (spec_listed_versions value).

(** C7, as the code has it: when the cookie variable is not the expected
    constant, or the text of the version variable (1 when it is unset) does
    not contain the character 2,
    the process ends with exit status 1 having written to standard error
    only: no handshake on standard output, no socket call. Hence a run that
    writes to standard output has passed both checks. *)
Theorem C7_no_handshake_unless_environment_checks (os : os_env) :
  let cookie := environ os !! "ARCADE_RPC_PLUGIN" in
  let versions := default "1" (environ os !! "PLUGIN_PROTOCOL_VERSIONS") in
  (cookie <> Some "arcade-rpc-plugin-protocol" \/ Text.contains "2" versions = false ->
   exit_code (run_main os) = Some 1 /\ Forall is_stderr (out (run_main os)))
  /\ (forall text, Stdout text ∈ out (run_main os) ->
      cookie = Some "arcade-rpc-plugin-protocol" /\ Text.contains "2" versions = true).
Proof.
  intros cookie versions.
  assert (cookie <> Some "arcade-rpc-plugin-protocol" \/ Text.contains "2" versions = false ->
          exit_code (run_main os) = Some 1 /\ Forall is_stderr (out (run_main os))) as Hfail.
  { subst cookie versions. unfold exit_code, run_main, main, check_environment.
    intros Hbad. run. case_bool_decide as Hc; run.
    - destruct Hbad as [Hbad|Hbad]; [done|]. rewrite Hbad. run.
      split; [done|]. by repeat constructor.
    - split; [done|]. by repeat constructor. }
  split; [exact Hfail|].
  intros text Hin.
  destruct (decide (cookie = Some "arcade-rpc-plugin-protocol")) as [Hc|Hc].
  - split; [done|]. destruct (Text.contains "2" versions) eqn:Hv; [done|].
    destruct Hfail as [_ Hall]; [by right|].
    rewrite Forall_forall in Hall. by destruct (Hall _ Hin).
  - destruct Hfail as [_ Hall]; [by left|].
    rewrite Forall_forall in Hall. by destruct (Hall _ Hin).
Qed.

End StartUp.

(** ** Accepting the connection, and closing the sockets *)

(** Reduce the reads of the server's fields. *)
Ltac fields :=
  cbn [SimpleRPCServer.set_plugin SimpleRPCServer.set_server_socket
       SimpleRPCServer.set_client_socket SimpleRPCServer.set_running
       SimpleRPCServer.plugin SimpleRPCServer.client_socket
       SimpleRPCServer.server_socket SimpleRPCServer.running].

Section Accept.
Context {P : Type} `{PluginObject P} `{Runtime}.
Import SimpleRPCServer.

(** The socket calls that set the listening endpoint up. *)
Definition listening : list action :=
  [Sys Socket true; Sys Setsockopt true; Sys Bind true; Sys Listen true;
   Sys Getsockname true].

(** The server once [start] has accepted the connection. *)
Definition connected (s : t P) : t P :=
  set_running true
    (set_client_socket (Some SockOpen) (set_server_socket (Some SockOpen) s)).

(** A read or a send on the accepted connection. *)
Definition is_exchange_call (a : action) : Prop :=
  match a with
  | Sys (Recv _) _ | Sys (Sendall _) _ => True
  | _ => False
  end.

Lemma loop_socket_events tr :
  Forall loop_event tr -> Forall is_exchange_call (socket_events tr).
Proof.
  induction 1 as [|a tr Ha _ IH]; [constructor|].
  destruct a as [| |[] ?]; cbn in *; try done; by constructor.
Qed.

(** C8, as the code has it. On a fresh server whose set-up calls succeed:
    while no connection arrives [start] is blocked in [accept] with the
    listening socket open; [accept] is called once. When it returns a
    connection, the listening socket is not closed: the request loop runs on
    the accepted connection, making only reads and sends, and the listening
    socket is closed by [stop], after the accepted connection, once the loop
    has ended; while the loop is blocked waiting for a request the listening
    socket is still open. *)
Theorem C8_one_accept_and_listener_closed_by_stop (os : os_env) (s : t P) :
  os_socket os = None -> os_setsockopt os = None ->
  os_bind os = None -> os_listen os = None ->
  client_socket s = None ->
  let r := start os s in
  match os_accept os with
  | None =>
      res r = Hang /\ socket_events (out r) = listening
      /\ server_socket (st r) = Some SockOpen
  | Some (inl e) =>
      socket_events (out r) = listening ++ [Sys Accept false; Sys CloseServer true]
  | Some (inr addr) =>
      let loop := _handle_requests (os_reads os) (connected s) in
      Forall is_exchange_call (socket_events (out loop))
      /\ match res loop with
         | Hang =>
             res r = Hang
             /\ socket_events (out r)
                = listening ++ [Sys Accept true] ++ socket_events (out loop)
             /\ server_socket (st r) = Some SockOpen
         | _ =>
             socket_events (out r)
             = listening ++ [Sys Accept true] ++ socket_events (out loop)
               ++ [Sys CloseClient true; Sys CloseServer true]
             /\ server_socket (st r) = Some SockClosed
         end
  end.
Proof.
  intros Hsock Hopt Hbind Hlisten Hclient.
  unfold start, accept, stop, _debug. rewrite Hsock, Hopt, Hbind, Hlisten.
  destruct (os_sockname os) as [host port].
  destruct (os_accept os) as [[e|addr]|]; run.
  - destruct (is_Exception e); run; fields; rewrite Hclient; by run.
  - fold (connected s).
    destruct (handle_requests_spec (os_reads os) (connected s)) as (Ho & (Hss & Hcs & _) & Hr).
    split; [by apply loop_socket_events|].
    destruct (_handle_requests (os_reads os) (connected s)) as [x s1 o1].
    cbn [res st out] in *. cbn in Hss, Hcs.
    destruct x as [[]|ex|]; run; fields; rewrite ?Hr; run; fields; rewrite ?Hcs, ?Hss; run; fields.
    + split; [|done]. unfold listening. by sock_simpl.
    + split; [|done]. unfold listening. by sock_simpl.
    + split; [done|]. split; [|done]. unfold listening. by sock_simpl.
  - done.
Qed.

End Accept.

(** ** The operations of the shipped plugin return or fail *)

Section NotifyPluginReturns.
Context `{Runtime} `{NotifyPlugin.ObjectBase}.
#[local] Existing Instance NotifyPlugin.plugin_object.

(** With a JSON parser that raises nothing outside [Exception], and
    inherited attributes that return or fail, every attribute of a
    [NotifyPlugin], called with any arguments on any instance, returns or
    raises an [Exception]. *)
Lemma notify_plugin_returns_or_fails :
  (forall text e, json_loads text = inl e -> is_Exception e = true) ->
  (forall n args p,
     match res (NotifyPlugin.base_invoke n args p) with
     | Ret _ => True
     | Raise e => is_Exception e = true
     | Hang => False
     end) ->
  returns_or_fails (P := NotifyPlugin.t).
Proof.
  intros Hjson Hbase n args p.
  cbn [invoke NotifyPlugin.plugin_object]. unfold NotifyPlugin.call_attribute.
  destruct (NotifyPlugin.is_data_descriptor n); [apply Hbase|]. run.
  destruct (NotifyPlugin.attr_get p n); run; [apply fault_is_Exception|].
  unfold NotifyPlugin.members. cbn [NotifyPlugin.lookup_member].
  repeat (match goal with |- context [String.eqb ?a n] => destruct (String.eqb a n) end;
          cbn [NotifyPlugin.lookup_member]).
  all: try (specialize (Hbase n args p);
            by destruct (NotifyPlugin.base_invoke n args p) as [[?|?|] ? ?]).
  all: unfold NotifyPlugin.call_member.
  all: destruct args as [|a1 [|a2 [|a3 [|a4 args]]]].
  all: unfold NotifyPlugin.__init__, NotifyPlugin.Name, NotifyPlugin.Description,
         NotifyPlugin.Version, NotifyPlugin.Type_, NotifyPlugin.Init, NotifyPlugin.Cleanup,
         NotifyPlugin.Send, NotifyPlugin.SendTemplate, NotifyPlugin.SendBatch,
         NotifyPlugin.report, NotifyPlugin.self_debug, NotifyPlugin._debug,
         NotifyPlugin.self_attr, NotifyPlugin.decode_if_bytes,
         json_loads_val, decode_utf8, py_len.
  all: run_all.
  all: try done.
  all: try apply fault_is_Exception.
  all: by eapply Hjson.
Qed.

End NotifyPluginReturns.
(** * The model at work: concrete sessions *)

(** From here on the runtime is [Sample.runtime] and the plugin is the
    shipped [NotifyPlugin] over [Sample.object_base]. *)
Section Examples.
Import SimpleRPCServer.
#[local] Existing Instance Sample.runtime.
#[local] Existing Instance Sample.object_base.
#[local] Existing Instance NotifyPlugin.plugin_object.

Lemma sample_loads_raises text e : Sample.loads text = inl e -> is_Exception e = true.
Proof.
  unfold Sample.loads.
  destruct (Sample.read_value _ _) as [[v r]|]; [destruct (Sample.skip_ws r)|];
    by intros [= <-].
Qed.

Lemma sample_base_returns_or_fails n args (p : NotifyPlugin.t) :
  match res (NotifyPlugin.base_invoke n args p) with
  | Ret _ => True
  | Raise e => is_Exception e = true
  | Hang => False
  end.
Proof.
  cbn [NotifyPlugin.base_invoke Sample.object_base].
  unfold Sample.getattribute, Sample.setattr, Sample.delattr.
  repeat match goal with
         | |- context [String.eqb n ?a] => destruct (String.eqb n a)
         end; [..|done].
  all: destruct args as [|[] [|? [|? ?]]]; try done.
  all: run_all; done.
Qed.

Lemma sample_plugin_returns_or_fails : returns_or_fails (P := NotifyPlugin.t).
Proof.
  apply notify_plugin_returns_or_fails;
    [apply sample_loads_raises | apply sample_base_returns_or_fails].
Qed.

Definition req_name : string := Sample.request "Plugin.Name" "[]" 1.
Definition req_cleanup : string := Sample.request "Cleanup" "[]" 2.
Definition req_bogus : string := Sample.request "Bogus" "[]" 2.
Definition req_data_attribute : string := Sample.request "name" "[]" 7.

(** One byte, 0xFF: not UTF-8. *)
Definition bad_utf8 : string := String "255"%char EmptyString.

(** Valid JSON, but an array and not an object. *)
Definition json_array : string := "[1, 2]".

(** The parsed form of [Sample.request m "[]" id]. *)
Definition parsed (m : string) (id : Z) : list (string * pyval) :=
  [("method", PStr m); ("params", PList []); ("id", PInt id)].

(** C9, witnessed by a [Cleanup] request. *)
Lemma C9_witness :
  res (_call_method (PStr "Cleanup") (PList []) Sample.serving) = Ret (PNone, PNone)
  /\ socket_events (out (handle_request (Sample.incoming req_cleanup) Sample.serving))
     = exchange (Sample.incoming req_cleanup) req_cleanup (PInt 2) PNone PNone.
Proof.
  eapply (C9_none_result_gives_null_result_and_error
            (Sample.incoming req_cleanup) Sample.serving req_cleanup
            (parsed "Cleanup" 2) "Cleanup" []).
  - repeat split; [done|vm_compute; reflexivity..].
  - reflexivity.
  - reflexivity.
  - reflexivity.
  - vm_compute. reflexivity.
Defined.

(** The spec's scenario: a request for [Bogus]. It witnesses C6 as
    amended. *)
Lemma C6_witness :
  _call_method (PStr "Bogus") (PList []) Sample.serving
  = Step (Ret (PNone, PStr "方法 Bogus 不存在")) Sample.serving []
  /\ socket_events (out (handle_request (Sample.incoming req_bogus) Sample.serving))
     = exchange (Sample.incoming req_bogus) req_bogus (PInt 2) PNone (PStr "方法 Bogus 不存在")
  /\ st (handle_request (Sample.incoming req_bogus) Sample.serving) = Sample.serving
  /\ (send_result (Sample.incoming req_bogus) = None ->
      res (handle_request (Sample.incoming req_bogus) Sample.serving) = Ret Next).
Proof.
  eapply (C6_name_that_is_no_attribute_is_reported
            (Sample.incoming req_bogus) Sample.serving req_bogus (parsed "Bogus" 2) "Bogus").
  - repeat split; [done|vm_compute; reflexivity..].
  - reflexivity.
  - reflexivity.
Defined.

(** C6 as stated fails: [_debug] is none of the operations of the plugin
    interface, yet a request for it is answered without any error. *)
Lemma C6_counterexample :
  existsb (String.eqb "_debug") NotifyPlugin.operations = false
  /\ res (_call_method (PStr "_debug") (PList [PStr "hi"]) Sample.serving)
     = Ret (PNone, PNone).
Proof. split; vm_compute; reflexivity. Qed.

(** The fault of calling the data attribute [name]. *)
Definition not_callable : pyexc :=
  exc_of_fault (NotCallable (PStr "python-notify")).

(** C2 as amended, witnessed by a request for the data attribute [name]. *)
Lemma C2_witness :
  let ev := Sample.incoming req_data_attribute in
  let error_msg :=
    "调用方法失败: " +:+ exc_str not_callable +:+ Text.newline +:+ format_exc not_callable in
  _call_method (PStr "name") (PList []) Sample.serving
  = Step (Ret (PNone, PStr error_msg)) Sample.serving [Stderr ("[RPC] " +:+ error_msg)]
  /\ socket_events (out (handle_request ev Sample.serving))
     = exchange ev req_data_attribute (PInt 7) PNone (PStr error_msg)
  /\ (send_result ev = None -> res (handle_request ev Sample.serving) = Ret Next).
Proof.
  eapply (C2_fault_is_answered_with_description_and_traceback
            (Sample.incoming req_data_attribute) Sample.serving req_data_attribute
            (parsed "name" 7) not_callable Sample.serving []).
  - repeat split; [done|vm_compute; reflexivity..].
  - vm_compute. reflexivity.
  - reflexivity.
Defined.

(** C2 as stated fails: the error text of the response holds the
    traceback. *)
Lemma C2_counterexample :
  res (_call_method (PStr "name") (PList []) Sample.serving)
  = Ret (PNone,
         PStr ("调用方法失败: 'str' object is not callable" +:+ Text.newline
               +:+ format_exc not_callable))
  /\ format_exc not_callable
     = "Traceback (most recent call last):" +:+ Text.newline
       +:+ "TypeError: 'str' object is not callable" +:+ Text.newline.
Proof. split; vm_compute; reflexivity. Qed.

(** C3 as amended, witnessed by text that is not JSON. *)
Lemma C3_witness :
  let ev := Sample.incoming "{invalid json" in
  let logged :=
    [Sys (Recv "{invalid json") true;
     Stderr ("[RPC] " +:+ "无法解析请求: " +:+ "b'{invalid json'")] in
  handle_request ev Sample.serving = Step (Ret Next) Sample.serving logged
  /\ (running Sample.serving = true ->
      _handle_requests [ev; Sample.incoming req_cleanup] Sample.serving
      = after logged (_handle_requests [Sample.incoming req_cleanup] Sample.serving)).
Proof.
  refine (C3_undecodable_json_is_logged_and_skipped
            (Sample.incoming "{invalid json") [Sample.incoming req_cleanup] Sample.serving
            "{invalid json" Sample.decode_error _ _ _ _ _).
  - reflexivity.
  - done.
  - vm_compute. reflexivity.
  - vm_compute. reflexivity.
  - reflexivity.
Defined.

(** C3 as stated fails: after a read of bytes that are not UTF-8, and
    after a read of a JSON array, the loop ends; the request that follows is
    never read. *)
Lemma C3_counterexample :
  (res (_handle_requests [Sample.incoming bad_utf8; Sample.incoming req_cleanup] Sample.serving)
   = Ret tt
   /\ socket_events
        (out (_handle_requests [Sample.incoming bad_utf8; Sample.incoming req_cleanup]
                Sample.serving))
      = [Sys (Recv bad_utf8) true])
  /\ (res (_handle_requests [Sample.incoming json_array; Sample.incoming req_cleanup]
             Sample.serving)
      = Ret tt
      /\ socket_events
           (out (_handle_requests [Sample.incoming json_array; Sample.incoming req_cleanup]
                   Sample.serving))
         = [Sys (Recv json_array) true]).
Proof. repeat split; vm_compute; reflexivity. Qed.

(** C1: on the shipped plugin, [__getattribute__("config")] returns
    the configuration dictionary, which is answered as a failure. *)
Lemma C1_witness :
  res (_call_method (PStr "__getattribute__") (PList [PStr "config"]) Sample.serving)
  = Ret (PNone, PStr (call_failed (exc_of_fault (NoAttribute (PDict []) "startswith")))).
Proof.
  unshelve epose proof
    (C1_value_that_is_no_text_is_answered_as_failure
       Sample.serving (PStr "__getattribute__") (PList [PStr "config"])
       "__getattribute__" [PStr "config"] (PDict []) Sample.plugin0 [] _ _ _ _ _ _)
    as (ex & Hex & Hres); [reflexivity..|].
  injection Hex as <-. exact Hres.
Defined.

(** C5, witnessed by two requests. *)
Lemma C5_witness :
  exists answers : list (pyval * pyval),
    length answers = 2%nat
    /\ socket_events
         (out (_handle_requests [Sample.incoming req_name; Sample.incoming req_cleanup]
                 Sample.serving))
       = exchanges [(req_name, PInt 1); (req_cleanup, PInt 2)] answers
    /\ res (_handle_requests [Sample.incoming req_name; Sample.incoming req_cleanup]
              Sample.serving) = Hang.
Proof.
  apply (C5_one_response_per_request_in_order
           [Sample.incoming req_name; Sample.incoming req_cleanup]
           [(req_name, PInt 1); (req_cleanup, PInt 2)] Sample.serving).
  - exact sample_plugin_returns_or_fails.
  - reflexivity.
  - repeat constructor.
    + exists (parsed "Plugin.Name" 1), "Plugin.Name", [].
      repeat split; [done|vm_compute; reflexivity..].
    + exists (parsed "Cleanup" 2), "Cleanup", [].
      repeat split; [done|vm_compute; reflexivity..].
Defined.

(** What the two answers are. *)
Example two_requests_answered :
  socket_events
    (out (_handle_requests [Sample.incoming req_name; Sample.incoming req_cleanup]
            Sample.serving))
  = exchanges [(req_name, PInt 1); (req_cleanup, PInt 2)]
      [(PStr "python-notify", PNone); (PNone, PNone)].
Proof. vm_compute. reflexivity. Qed.

(** The environment a legitimate host sets. *)
Definition trusted_environ : gmap string string :=
  {[ "ARCADE_RPC_PLUGIN" := "arcade-rpc-plugin-protocol";
     "PLUGIN_PROTOCOL_VERSIONS" := "2" ]}.

(** An operating system whose socket calls succeed. *)
Definition os_with (env : gmap string string) (acc : option (pyexc + pyval))
    (reads : list read_event) : os_env :=
  {| environ := env; os_socket := None; os_setsockopt := None; os_bind := None;
     os_listen := None; os_sockname := ("127.0.0.1", 40000);
     os_accept := acc; os_reads := reads |}.

Definition peer : pyval := PTuple [PStr "127.0.0.1"; PInt 50000].

(** The peer has closed the connection. *)
Definition closed : read_event := {| recv_result := inr EmptyString; send_result := None |}.

(** The server as [main] builds it. *)
Definition fresh : SimpleRPCServer.t NotifyPlugin.t :=
  SimpleRPCServer.Build Sample.plugin0 None None false.

(** C7, witnessed by a start without the cookie variable. *)
Lemma C7_witness :
  exit_code (run_main (os_with ∅ (Some (inr peer)) [])) = Some 1
  /\ Forall is_stderr (out (run_main (os_with ∅ (Some (inr peer)) []))).
Proof.
  apply (proj1 (C7_no_handshake_unless_environment_checks (os_with ∅ (Some (inr peer)) []))).
  left. vm_compute. discriminate.
Defined.

(** A host that supports version 12 only, and a peer that connects and
    closes. *)
Definition os_version_12 : os_env :=
  os_with {[ "ARCADE_RPC_PLUGIN" := "arcade-rpc-plugin-protocol";
             "PLUGIN_PROTOCOL_VERSIONS" := "12" ]}
    (Some (inr peer)) [closed].

(** C7 as stated fails: with the supported list 12, version 2 is absent
    from the list, yet the process writes the handshake, serves the session
    and exits with status 0. *)
Lemma C7_counterexample :
  spec_listed_versions "12" = ["12"]
  /\ spec_version_listed "2" "12" = false
  /\ List.filter (fun a => match a with Stdout _ => true | _ => false end)
       (out (run_main os_version_12))
     = [Stdout ("1|2|tcp|127.0.0.1:40000|grpc" +:+ Text.newline)]
  /\ exit_code (run_main os_version_12) = Some 0.
Proof. repeat split; vm_compute; reflexivity. Qed.

(** The version text 1,3 does not contain 2: the process exits. *)
Example unsupported_version_exits :
  exit_code (run_main (os_with {[ "ARCADE_RPC_PLUGIN" := "arcade-rpc-plugin-protocol";
                                  "PLUGIN_PROTOCOL_VERSIONS" := "1,3" ]}
                         (Some (inr peer)) [])) = Some 1.
Proof. vm_compute. reflexivity. Qed.

(** The version check is a substring test: the text 12 passes it. *)
Example version_check_is_a_substring_test :
  List.filter (fun a => match a with Stdout _ => true | _ => false end)
    (out (run_main (os_with {[ "ARCADE_RPC_PLUGIN" := "arcade-rpc-plugin-protocol";
                               "PLUGIN_PROTOCOL_VERSIONS" := "12" ]} None [])))
  = [Stdout ("1|2|tcp|127.0.0.1:40000|grpc" +:+ Text.newline)].
Proof. vm_compute. reflexivity. Qed.

(** The handshake of a trusted start. *)
Example trusted_start_writes_the_handshake :
  List.filter (fun a => match a with Stdout _ => true | _ => false end)
    (out (run_main (os_with trusted_environ None [])))
  = [Stdout ("1|2|tcp|127.0.0.1:40000|grpc" +:+ Text.newline)].
Proof. vm_compute. reflexivity. Qed.

(** C8 as amended, witnessed by a session of one request, after which the
    peer closes. *)
Lemma C8_witness :
  let os := os_with trusted_environ (Some (inr peer)) [Sample.incoming req_name; closed] in
  let r := start os fresh in
  let loop := _handle_requests (os_reads os) (connected fresh) in
  Forall is_exchange_call (socket_events (out loop))
  /\ socket_events (out r)
     = listening ++ [Sys Accept true] ++ socket_events (out loop)
       ++ [Sys CloseClient true; Sys CloseServer true]
  /\ server_socket (st r) = Some SockClosed.
Proof.
  exact (C8_one_accept_and_listener_closed_by_stop
           (os_with trusted_environ (Some (inr peer)) [Sample.incoming req_name; closed])
           fresh eq_refl eq_refl eq_refl eq_refl eq_refl).
Defined.

(** C8 as stated fails: with the connection accepted and a request
    served, the process waits for the next request and the listening socket
    is still open; it has not been closed. *)
Lemma C8_counterexample :
  res (run_main (os_with trusted_environ (Some (inr peer)) [Sample.incoming req_name])) = Hang
  /\ socket_events
       (out (run_main (os_with trusted_environ (Some (inr peer)) [Sample.incoming req_name])))
     = listening
       ++ [Sys Accept true; Sys (Recv req_name) true;
           Sys (Sendall (json_dumps (response (PInt 1) (PStr "python-notify") PNone))) true]
  /\ server_socket
       (st (run_main (os_with trusted_environ (Some (inr peer)) [Sample.incoming req_name])))
     = Some SockOpen.
Proof. repeat split; vm_compute; reflexivity. Qed.

End Examples.

(** * Further properties of the code *)

(** ** Logging on an instance *)

Section PluginLogging.
Context `{Runtime}.

Lemma prefix_append (p x : string) : String.prefix p (p +:+ x) = true.
Proof.
  induction p as [|a p IH]; [by destruct x|].
  change (String a p +:+ x) with (String a (p +:+ x)).
  cbn [String.prefix]. destruct (Ascii.ascii_dec a a); [exact IH|congruence].
Qed.

(** The line [NotifyPlugin._debug] prints for [text] on an instance whose
    [name] is [n]. *)
Definition plugin_log (n : pyval) (text : string) : string :=
  "[" +:+ py_str n +:+ "] " +:+ text.

(** The instance logs under [n]: its [_debug] is the method of the class
    (no entry of the dictionary hides it), and its [name] is [n]. Every
    instance the class builds does, under its name. *)
Definition logs_as (self : NotifyPlugin.t) (n : pyval) : Prop :=
  NotifyPlugin.attr_get self "_debug" = None
  /\ NotifyPlugin.attr_get self "name" = Some n.

Lemma instance_logs (f : NotifyPlugin.fields) :
  logs_as (NotifyPlugin.instance f) (PStr (NotifyPlugin.name f)).
Proof. by split. Qed.

Lemma logs_as_set_config (self : NotifyPlugin.t) (n c : pyval) :
  logs_as self n -> logs_as (NotifyPlugin.attr_set "config" c self) n.
Proof. intros [Hd Hn]. split; by rewrite attr_get_set. Qed.

Lemma instance_set_config (f : NotifyPlugin.fields) (c : pyval) :
  NotifyPlugin.attr_set "config" c (NotifyPlugin.instance f)
  = NotifyPlugin.instance (NotifyPlugin.set_config c f).
Proof. done. Qed.

Lemma self_debug_logs (self : NotifyPlugin.t) (n message : pyval) :
  logs_as self n ->
  NotifyPlugin.self_debug message self
  = Step (Ret PNone) self [plugin_log n (py_str message)].
Proof.
  intros [Hd Hn]. unfold NotifyPlugin.self_debug, NotifyPlugin._debug, NotifyPlugin.self_attr.
  run. rewrite Hd. run. rewrite Hn. by run.
Qed.

Lemma attr_get_set_same (k : string) (v : pyval) (self : NotifyPlugin.t) :
  NotifyPlugin.attr_get (NotifyPlugin.attr_set k v self) k = Some v.
Proof. by rewrite attr_get_set, String.eqb_refl. Qed.

End PluginLogging.

(** Run an operation on an instance that logs under [n]. *)
Ltac logged Hlog :=
  repeat progress
    (run; rewrite ?attr_get_set_same, ?(self_debug_logs _ _ _ Hlog),
                  ?(self_debug_logs _ _ _ (logs_as_set_config _ _ _ Hlog))).

(** ** The operations of the plugin *)

Section PluginOperations.
Context `{Runtime}.

(** [Init] with no configuration (None, an empty text, anything falsy)
    succeeds and leaves the plugin as it was. *)
Theorem Init_without_config_changes_nothing
    (c : pyval) (self : NotifyPlugin.t) (n : pyval) :
  truthy c = false ->
  logs_as self n ->
  NotifyPlugin.Init c self
  = Step (Ret PNone) self
      [plugin_log n ("Init() 被调用，配置: " +:+ py_str c);
       plugin_log n "插件初始化成功"].
Proof.
  intros Hc Hlog. unfold NotifyPlugin.Init. rewrite Hc. by logged Hlog.
Qed.

(** [Init] with a configuration text that parses stores the parsed value
    as the configuration, changes nothing else, and reports success; the
    same holds for the configuration given as UTF-8 bytes. *)
Theorem Init_stores_the_parsed_config
    (text : string) (v : pyval) (self : NotifyPlugin.t) (n : pyval) :
  text <> EmptyString ->
  json_loads text = inr v ->
  logs_as self n ->
  (res (NotifyPlugin.Init (PStr text) self) = Ret PNone
   /\ st (NotifyPlugin.Init (PStr text) self) = NotifyPlugin.attr_set "config" v self)
  /\ (Text.utf8_valid text = true ->
      res (NotifyPlugin.Init (PBytes text) self) = Ret PNone
      /\ st (NotifyPlugin.Init (PBytes text) self) = NotifyPlugin.attr_set "config" v self).
Proof.
  intros Htext Hjson Hlog. apply String.eqb_neq in Htext.
  unfold NotifyPlugin.Init, NotifyPlugin.decode_if_bytes, NotifyPlugin.self_attr,
    json_loads_val, decode_utf8.
  cbn [truthy]. rewrite Htext. cbn [negb]. split.
  - logged Hlog. rewrite Hjson. by logged Hlog.
  - intros Hutf. logged Hlog. rewrite Hutf. run. rewrite Hjson. by logged Hlog.
Qed.

(** Whatever it is given, [Init] returns None or a failure text that
    starts with one of its two prefixes; when it returns a failure text the
    plugin is unchanged (no partial configuration); and only an exception
    outside [Exception], raised by the JSON parser, can leave it. *)
Theorem Init_fails_without_side_effect (c : pyval) (self : NotifyPlugin.t) (n : pyval) :
  logs_as self n ->
  match res (NotifyPlugin.Init c self) with
  | Ret PNone => True
  | Ret (PStr msg) =>
      st (NotifyPlugin.Init c self) = self
      /\ (String.prefix "配置解析失败: " msg = true \/ String.prefix "初始化失败: " msg = true)
  | Ret _ => False
  | Raise e => is_Exception e = false /\ exists text, json_loads text = inl e
  | Hang => False
  end.
Proof.
  intros Hlog.
  unfold NotifyPlugin.Init, NotifyPlugin.report, NotifyPlugin.decode_if_bytes,
    NotifyPlugin.self_attr, json_loads_val, decode_utf8.
  logged Hlog.
  repeat (split_head; logged Hlog).
  all: try done.
  all: try (split; [done|]; (by left; apply prefix_append) || (by right; apply prefix_append)).
  all: try (split; [done|]; eauto).
  all: rewrite fault_is_Exception in *; done.
Qed.

(** With no payload (None, an empty text, anything falsy) the three send
    operations succeed without calling the JSON parser, and leave the plugin
    as it was. *)
Theorem send_operations_accept_an_empty_payload
    (x template opts : pyval) (self : NotifyPlugin.t) (n : pyval) :
  truthy x = false ->
  logs_as self n ->
  (res (NotifyPlugin.Send x opts self) = Ret PNone
   /\ st (NotifyPlugin.Send x opts self) = self)
  /\ (res (NotifyPlugin.SendTemplate template x opts self) = Ret PNone
      /\ st (NotifyPlugin.SendTemplate template x opts self) = self)
  /\ (res (NotifyPlugin.SendBatch x opts self) = Ret PNone
      /\ st (NotifyPlugin.SendBatch x opts self) = self).
Proof.
  intros Hx Hlog.
  assert (exists x', NotifyPlugin.decode_if_bytes x self = Step (Ret x') self []
                     /\ truthy x' = false) as (x' & Hdec & Hx').
  { destruct x; try (by eexists). cbn in Hx.
    apply negb_false_iff, String.eqb_eq in Hx. subst. by exists (PStr EmptyString). }
  unfold NotifyPlugin.Send, NotifyPlugin.SendTemplate, NotifyPlugin.SendBatch.
  repeat split; logged Hlog; rewrite Hdec; run; rewrite Hx'; cbn [py_len]; by logged Hlog.
Qed.

(** [SendBatch] on a text that parses: when the parsed value has a length
    (a list, a text, an object) the batch is reported sent and the
    number of messages is logged; when it has none (a number, null, a
    boolean) the operation returns its failure report. Either way the plugin
    is unchanged. *)
Theorem SendBatch_counts_the_messages_or_reports
    (text : string) (v opts : pyval) (self : NotifyPlugin.t) (n : pyval) :
  text <> EmptyString ->
  json_loads text = inr v ->
  logs_as self n ->
  let r := NotifyPlugin.SendBatch (PStr text) opts self in
  st r = self
  /\ match py_len v with
     | inr k =>
         res r = Ret PNone
         /\ plugin_log n ("批量发送 " +:+ pretty k +:+ " 条消息") ∈ out r
     | inl e => res r = Ret (PStr ("批量发送消息失败: " +:+ exc_str e))
     end.
Proof.
  intros Htext Hjson Hlog. apply String.eqb_neq in Htext.
  unfold NotifyPlugin.SendBatch, NotifyPlugin.report, NotifyPlugin.decode_if_bytes,
    json_loads_val.
  logged Hlog. cbn [truthy]. rewrite Htext. cbn [negb]. rewrite Hjson. run.
  destruct (py_len v) as [e|k] eqn:Hlen; logged Hlog.
  - assert (is_Exception e = true) as ->.
    { destruct v; cbn in Hlen; try discriminate; injection Hlen as <-;
        apply fault_is_Exception. }
    by logged Hlog.
  - repeat split. cbn [py_str].
    repeat first [apply list_elem_of_here | apply list_elem_of_further].
Qed.

End PluginOperations.

(** ** What the operations keep, and what they return *)

(** Unfold the operations of the plugin. *)
Ltac unfold_operations :=
  unfold NotifyPlugin.call_member, NotifyPlugin.__init__, NotifyPlugin.Name,
    NotifyPlugin.Description, NotifyPlugin.Version, NotifyPlugin.Type_,
    NotifyPlugin.Init, NotifyPlugin.Cleanup, NotifyPlugin.Send,
    NotifyPlugin.SendTemplate, NotifyPlugin.SendBatch, NotifyPlugin.report,
    NotifyPlugin.decode_if_bytes, json_loads_val, decode_utf8, py_len.

(** Case analysis on which of the nine operations [n] is. *)
Ltac each_operation Hn :=
  unfold NotifyPlugin.operations in Hn;
  repeat (apply elem_of_cons in Hn as [->|Hn]); [..|by apply elem_of_nil in Hn].

(** Run a computation on an instance of which nothing is known: every
    lookup in the dictionary is a case distinction. *)
Ltac run_lookups :=
  repeat progress
    (run; unfold NotifyPlugin.self_debug, NotifyPlugin._debug, NotifyPlugin.self_attr;
     rewrite ?attr_get_set; cbn [String.eqb Ascii.eqb Bool.eqb]; try split_head).

Section PluginInvariants.
Context `{Runtime} `{NotifyPlugin.ObjectBase}.
#[local] Existing Instance NotifyPlugin.plugin_object.

(** The identity of the plugin: the four attributes [__init__] sets and
    no operation assigns. *)
Definition same_identity (a b : NotifyPlugin.t) : Prop :=
  NotifyPlugin.attr_get b "name" = NotifyPlugin.attr_get a "name"
  /\ NotifyPlugin.attr_get b "version" = NotifyPlugin.attr_get a "version"
  /\ NotifyPlugin.attr_get b "plugin_type" = NotifyPlugin.attr_get a "plugin_type"
  /\ NotifyPlugin.attr_get b "description" = NotifyPlugin.attr_get a "description".

(** What one call of an operation leaves of the instance, whatever its
    dictionary holds and whatever the arguments: the instance as it was,
    or, after [Init], the instance with a new configuration. *)
Lemma operation_effect (n : string) (args : list pyval) (self : NotifyPlugin.t) :
  n ∈ NotifyPlugin.operations ->
  st (invoke n args self) = self
  \/ (n = "Init"
      /\ exists cfg, st (invoke n args self) = NotifyPlugin.attr_set "config" cfg self).
Proof.
  intros Hn. each_operation Hn.
  all: resolve; run.
  all: match goal with
       | |- context [NotifyPlugin.attr_get ?p ?k] =>
           destruct (NotifyPlugin.attr_get p k); run; [by left|]
       end.
  all: destruct args as [|a1 [|a2 [|a3 [|a4 args]]]].
  all: unfold_operations; run_lookups.
  all: try (by left).
  all: right; split; [done|]; by eexists.
Qed.

(** No operation of the interface changes the identity of the plugin,
    whatever arguments it is called with, and only [Init] changes anything
    at all. *)
Theorem operations_keep_the_plugin (n : string) (args : list pyval) (self : NotifyPlugin.t) :
  n ∈ NotifyPlugin.operations ->
  same_identity self (st (invoke n args self))
  /\ (n <> "Init" -> st (invoke n args self) = self).
Proof.
  intros Hn. destruct (operation_effect n args self Hn) as [->|(-> & cfg & ->)].
  - by repeat split.
  - split; [|done]. repeat split; by rewrite attr_get_set.
Qed.

(** No entry of the dictionary hides a method of the class. *)
Definition unhidden (self : NotifyPlugin.t) : Prop :=
  forall n, n ∈ (NotifyPlugin.members).*1 -> NotifyPlugin.attr_get self n = None.

(** The plugin carries the identity [__init__] gives it, and its methods
    are those of the class. *)
Definition initialised (self : NotifyPlugin.t) : Prop :=
  unhidden self
  /\ NotifyPlugin.attr_get self "name" = Some (PStr "python-notify")
  /\ NotifyPlugin.attr_get self "version" = Some (PStr "1.0.0")
  /\ NotifyPlugin.attr_get self "plugin_type" = Some (PStr "notify")
  /\ NotifyPlugin.attr_get self "description" = Some (PStr "Python 通知插件示例").

(** Every instance the class builds is, whatever configuration [Init]
    has stored since. *)
Lemma instance_unhidden (f : NotifyPlugin.fields) : unhidden (NotifyPlugin.instance f).
Proof.
  intros n Hn. cbn in Hn.
  repeat (apply elem_of_cons in Hn as [->|Hn]; [done|]). by apply elem_of_nil in Hn.
Qed.

Lemma instance_initialised (c : pyval) :
  initialised (NotifyPlugin.instance
                 (NotifyPlugin.Build "python-notify" "1.0.0" "notify" "Python 通知插件示例" c)).
Proof. split; [apply instance_unhidden|by repeat split]. Qed.

(** The number of parameters, after [self], of a method the class defines. *)
Definition arity (n : string) : option nat :=
  match NotifyPlugin.lookup_member NotifyPlugin.members n with
  | Some (NotifyPlugin.Method0 _) => Some 0%nat
  | Some (NotifyPlugin.Method1 _) => Some 1%nat
  | Some (NotifyPlugin.Method2 _) => Some 2%nat
  | Some (NotifyPlugin.Method3 _) => Some 3%nat
  | None => None
  end.

(** The JSON parser raises nothing outside [Exception]. *)
Definition parser_raises_exceptions : Prop :=
  forall text e, json_loads text = inl e -> is_Exception e = true.

(** A text that starts with neither failure marker of the server. *)
Definition unmarked (msg : string) : Prop :=
  String.prefix "错误" msg = false /\ String.prefix "失败" msg = false.

(** What an operation returns when called with as many arguments as it
    has parameters. *)
Lemma operation_return
    (n : string) (args : list pyval) (self : NotifyPlugin.t) :
  n ∈ NotifyPlugin.operations ->
  arity n = Some (length args) ->
  initialised self ->
  parser_raises_exceptions ->
  exists v, res (invoke n args self) = Ret v
            /\ (v = PNone \/ exists msg, v = PStr msg /\ unmarked msg).
Proof.
  intros Hn Ha (Hun & Hname & Hver & Hty & Hdesc) Hjson.
  assert (logs_as self (PStr "python-notify")) as Hlog.
  { split; [|done]. apply Hun. cbn.
    repeat first [apply list_elem_of_here | apply list_elem_of_further]. }
  pose proof (Hun n) as Hself.
  each_operation Hn.
  all: cbv [arity NotifyPlugin.lookup_member NotifyPlugin.members
            String.eqb Ascii.eqb Bool.eqb] in Ha.
  all: destruct args as [|a1 [|a2 [|a3 [|a4 args]]]]; try discriminate Ha; clear Ha.
  all: resolve; run.
  all: rewrite Hself
         by (cbn; repeat first [apply list_elem_of_here | apply list_elem_of_further]).
  all: unfold_operations; unfold NotifyPlugin.self_attr.
  all: repeat progress (logged Hlog; rewrite ?Hname, ?Hver, ?Hty, ?Hdesc; try split_head).
  all: try (eexists; split; [reflexivity|]; by left).
  all: try (eexists; split; [reflexivity|]; right; eexists; split; [reflexivity|]; by split).
  all: exfalso;
       repeat match goal with
         | Hl : json_loads _ = inl _ |- _ => apply Hjson in Hl
         | Hf : is_Exception (exc_of_fault _) = false |- _ =>
             rewrite fault_is_Exception in Hf
         end; congruence.
Qed.

(** Called with as many arguments as it has parameters, an operation of
    the interface never raises: it returns None, or a text, and that text
    (the name, the version, ..., or the failure report of the operation)
    starts with neither of the markers by which the server recognises a
    failure. *)
Theorem operations_return_none_or_unmarked_text
    (n : string) (args : list pyval) (self : NotifyPlugin.t) :
  n ∈ NotifyPlugin.operations ->
  arity n = Some (length args) ->
  initialised self ->
  parser_raises_exceptions ->
  exists v, res (invoke n args self) = Ret v
            /\ (v = PNone \/ exists msg, v = PStr msg /\ unmarked msg).
Proof. apply operation_return. Qed.

End PluginInvariants.

(** ** The operations, called through the server *)

Section PluginThroughServer.
Context `{Runtime} `{NotifyPlugin.ObjectBase}.
Import SimpleRPCServer.
#[local] Existing Instance NotifyPlugin.plugin_object.

(** [_call_method] on a name that resolves, with parameters that unpack,
    when the call returns [v] and [v] is classified without a fault. *)
Lemma call_method_of_invocation {P : Type} `{PluginObject P}
    (s : t P) method params n args v p' o (b : bool) :
  last_segment method = inr n ->
  hasattr (plugin s) n = true ->
  unpack params = inr args ->
  invoke n args (plugin s) = Step (Ret v) p' o ->
  is_error_result v = inr b ->
  _call_method method params s
  = Step (Ret (if b then (PNone, v) else (v, PNone))) (set_plugin p' s) (Stderr <$> o).
Proof.
  intros Hn Hattr Hargs Hinv Hb.
  unfold _call_method, call_method_try, call_resolved, on_plugin.
  run. rewrite Hn. run. rewrite Hattr. run. rewrite Hargs. run. rewrite Hinv. run.
  rewrite Hb. run. destruct b; run; by rewrite app_nil_r.
Qed.

Lemma unmarked_is_no_error msg : unmarked msg -> is_error_result (PStr msg) = inr false.
Proof. intros [H1 H2]. cbn. rewrite H1. cbn. by rewrite H2. Qed.

(** The names of the methods are single segments, and none is a data
    descriptor. *)
Lemma method_name_is_plain (n : string) :
  n ∈ (NotifyPlugin.members).*1 ->
  segment n = n /\ NotifyPlugin.is_data_descriptor n = false.
Proof.
  intros Hn. cbn in Hn.
  repeat (apply elem_of_cons in Hn as [->|Hn]; [by split|]). by apply elem_of_nil in Hn.
Qed.

Lemma operation_is_method (n : string) :
  n ∈ NotifyPlugin.operations -> n ∈ (NotifyPlugin.members).*1.
Proof.
  intros Hn. each_operation Hn; cbn;
    repeat first [apply list_elem_of_here | apply list_elem_of_further].
Qed.

(** A request for an operation of the interface, with as many parameters
    as the operation takes, is never answered with an error: the result slot
    carries what the operation returned, also when that is the failure
    report of the operation, and the error slot is null. *)
Theorem operation_failure_is_answered_as_result
    (s : SimpleRPCServer.t NotifyPlugin.t) (n : string) (args : list pyval) :
  n ∈ NotifyPlugin.operations ->
  arity n = Some (length args) ->
  initialised (plugin s) ->
  parser_raises_exceptions ->
  exists v,
    res (invoke n args (plugin s)) = Ret v
    /\ res (_call_method (PStr n) (PList args) s) = Ret (v, PNone).
Proof.
  intros Hn Ha Hinit Hjson.
  destruct (operation_return n args (plugin s) Hn Ha Hinit Hjson)
    as (v & Hres & Hv).
  exists v. split; [done|].
  destruct (invoke n args (plugin s)) as [x p' o] eqn:Hinv. cbn in Hres. subst x.
  pose proof (operation_is_method n Hn) as Hm.
  assert (last_segment (PStr n) = inr n /\ hasattr (plugin s) n = true) as [Hseg Hattr].
  { split; [|by apply defined_attribute_resolves].
    cbn [last_segment]. by destruct (method_name_is_plain n Hm) as [-> _]. }
  destruct Hv as [->|(msg & -> & Hmsg)].
  - by rewrite (call_method_of_invocation s (PStr n) (PList args) n args PNone p' o true).
  - rewrite (call_method_of_invocation s (PStr n) (PList args) n args (PStr msg) p' o false);
      [done..|by apply unmarked_is_no_error].
Qed.

(** A method of the class called with the wrong number of parameters is
    not run: the call is answered as a call failure that names the arity
    fault, and the plugin is unchanged. The method is that of the class:
    no entry of the instance dictionary hides it. *)
Theorem wrong_number_of_parameters_is_a_call_failure
    (s : SimpleRPCServer.t NotifyPlugin.t) (n : string) (k : nat) (args : list pyval) :
  arity n = Some k ->
  length args <> k ->
  NotifyPlugin.attr_get (plugin s) n = None ->
  let error_msg := call_failed (exc_of_fault (BadArity n k (length args))) in
  _call_method (PStr n) (PList args) s
  = Step (Ret (PNone, PStr error_msg)) s [Stderr ("[RPC] " +:+ error_msg)].
Proof.
  intros Ha Hlen Hself error_msg. subst error_msg.
  assert (exists m, NotifyPlugin.lookup_member NotifyPlugin.members n = Some m) as [m Hm].
  { unfold arity in Ha. destruct (NotifyPlugin.lookup_member _ n); [eauto|done]. }
  assert (n ∈ (NotifyPlugin.members).*1) as Hin.
  { clear -Hm. unfold NotifyPlugin.members in Hm. cbn [NotifyPlugin.lookup_member] in Hm. cbn.
    repeat match type of Hm with
      | context [String.eqb ?a n] =>
          destruct (String.eqb a n) eqn:E;
          [apply String.eqb_eq in E; subst n;
           repeat first [apply list_elem_of_here | apply list_elem_of_further]|clear E]
      end.
    done. }
  destruct (method_name_is_plain n Hin) as [Hseg Hdd].
  unfold _call_method, call_method_try, call_resolved, on_plugin, call_method_except, _debug.
  cbn [last_segment unpack]. rewrite Hseg. run.
  cbn [hasattr invoke NotifyPlugin.plugin_object].
  unfold NotifyPlugin.has_attribute, NotifyPlugin.call_attribute.
  unfold arity in Ha. rewrite Hm in Ha. rewrite Hdd, Hself, Hm. run.
  rewrite ?Hself, ?Hm. run.
  destruct m; try discriminate Ha; injection Ha as <-.
  all: destruct args as [|a1 [|a2 [|a3 [|a4 args]]]]; try (by destruct Hlen).
  all: cbn [NotifyPlugin.call_member]; run; rewrite fault_is_Exception; run;
       by rewrite set_plugin_same.
Qed.

(** A request for [__init__] is served like any other attribute: on an
    instance as the class builds it, whatever its configuration, it puts
    the plugin back as [NotifyPlugin()] leaves it, and is answered with a
    null result and a null error. *)
Theorem init_request_resets_the_plugin
    (s : SimpleRPCServer.t NotifyPlugin.t) (f : NotifyPlugin.fields) :
  plugin s = NotifyPlugin.instance f ->
  _call_method (PStr "__init__") (PList []) s
  = Step (Ret (PNone, PNone)) (set_plugin Sample.plugin0 s)
      [Stderr (plugin_log (PStr "python-notify") "插件实例已创建")].
Proof.
  intros Hp.
  unfold _call_method, call_method_try, call_resolved, on_plugin.
  cbn [last_segment unpack]. change (segment "__init__") with "__init__".
  repeat progress
    (run; rewrite ?Hp; resolve;
     unfold NotifyPlugin.__init__, NotifyPlugin.self_debug, NotifyPlugin._debug,
       NotifyPlugin.self_attr).
  cbn [is_error_result is_None py_str]. by run.
Qed.

(** The plugin after a series of calls, each given by a name and its
    arguments, whatever each call returns or raises. *)
Definition after_calls (calls : list (string * list pyval)) (self : NotifyPlugin.t)
    : NotifyPlugin.t :=
  fold_left (fun p call => st (invoke call.1 call.2 p)) calls self.

(** The attributes other than the configuration are those of [a]. *)
Definition same_but_config (a b : NotifyPlugin.t) : Prop :=
  forall k, String.eqb "config" k = false ->
            NotifyPlugin.attr_get b k = NotifyPlugin.attr_get a k.

Lemma after_calls_same_but_config (calls : list (string * list pyval)) (self : NotifyPlugin.t) :
  Forall (fun call => call.1 ∈ NotifyPlugin.operations) calls ->
  same_but_config self (after_calls calls self).
Proof.
  intros Hcalls. revert self.
  induction Hcalls as [|[n args] calls Hn _ IH]; intros self; [done|].
  cbn [after_calls fold_left fst snd]. intros k Hk.
  specialize (IH (st (invoke n args self)) k Hk). unfold after_calls in IH. rewrite IH.
  destruct (operation_effect n args self Hn) as [->|(_ & cfg & ->)]; [done|].
  by rewrite attr_get_set, Hk.
Qed.

(** What a getter ([Name], [Description], ...) answers, in terms of
    the instance dictionary. *)
Lemma getter_result (k : string) (message : pyval) (self : NotifyPlugin.t) :
  res ((NotifyPlugin.self_debug message;; NotifyPlugin.self_attr k) self)
  = match NotifyPlugin.attr_get self "_debug" with
    | Some v => Raise (exc_of_fault (NotCallable v))
    | None =>
        match NotifyPlugin.attr_get self "name" with
        | None => Raise (NotifyPlugin.no_attribute "name")
        | Some _ =>
            match NotifyPlugin.attr_get self k with
            | Some v => Ret v
            | None => Raise (NotifyPlugin.no_attribute k)
            end
        end
    end.
Proof.
  unfold NotifyPlugin.self_debug, NotifyPlugin._debug, NotifyPlugin.self_attr. run.
  destruct (NotifyPlugin.attr_get self "_debug"); run; [done|].
  destruct (NotifyPlugin.attr_get self "name"); run; [|done].
  by destruct (NotifyPlugin.attr_get self k).
Qed.

(** Any series of calls of interface operations, with any arguments, on
    any instance, leaves the identity of the plugin as it was: [Name],
    [Description], [Version] and [Type] answer afterwards what they answered
    before. *)
Theorem identity_survives_any_calls
    (calls : list (string * list pyval)) (self : NotifyPlugin.t) :
  Forall (fun call => call.1 ∈ NotifyPlugin.operations) calls ->
  res (NotifyPlugin.Name (after_calls calls self)) = res (NotifyPlugin.Name self)
  /\ res (NotifyPlugin.Description (after_calls calls self))
     = res (NotifyPlugin.Description self)
  /\ res (NotifyPlugin.Version (after_calls calls self)) = res (NotifyPlugin.Version self)
  /\ res (NotifyPlugin.Type_ (after_calls calls self)) = res (NotifyPlugin.Type_ self).
Proof.
  intros Hcalls.
  pose proof (after_calls_same_but_config calls self Hcalls) as Hsame.
  unfold NotifyPlugin.Name, NotifyPlugin.Description, NotifyPlugin.Version,
    NotifyPlugin.Type_.
  rewrite !getter_result, !Hsame by done. done.
Qed.

End PluginThroughServer.

(** ** How the request loop ends, and what requests it tolerates *)

Section LoopEnds.
Context {P : Type} `{PluginObject P} `{Runtime}.
Import SimpleRPCServer.

(** A read of zero bytes (the peer has closed) ends the loop: nothing is
    sent, the state is unchanged, and the reads that would follow are never
    made. *)
Theorem zero_length_read_ends_the_loop
    (ev : read_event) (reads : list read_event) (s : t P) :
  recv_result ev = inr EmptyString ->
  running s = true ->
  _handle_requests (ev :: reads) s
  = Step (Ret tt) s [Sys (Recv EmptyString) true; Stderr ("[RPC] " +:+ "连接关闭")].
Proof.
  intros Hrecv Hrun. cbn [_handle_requests].
  unfold handle_request, recv, _debug. run. rewrite Hrun, Hrecv. by run.
Qed.

(** A fault of class [Exception] raised by [recv] ends the loop, with no
    response sent and the state unchanged; the loop returns normally, the
    fault does not leave it. *)
Theorem read_fault_ends_the_loop
    (ev : read_event) (reads : list read_event) (s : t P) (e : pyexc) :
  recv_result ev = inl e ->
  is_Exception e = true ->
  running s = true ->
  let r := _handle_requests (ev :: reads) s in
  res r = Ret tt /\ st r = s
  /\ socket_events (out r) = [Sys (Recv EmptyString) false].
Proof.
  intros Hrecv He Hrun. cbn [_handle_requests].
  unfold handle_request, recv, _debug. run. rewrite Hrun, Hrecv. run.
  destruct (is_ConnectionResetError e); run; [done|]. rewrite He. by run.
Qed.

(** A fault of class [Exception] raised by [sendall] ends the loop after
    that one attempt to send: the request has been processed (the plugin
    state is the one the call left), and no further read is made. *)
Theorem send_fault_ends_the_loop
    (ev : read_event) (reads : list read_event) (s : t P) data d v e s' o ex :
  delivers_object ev data d ->
  _call_method (method_of d) (params_of d) s = Step (Ret (v, e)) s' o ->
  send_result ev = Some ex ->
  is_Exception ex = true ->
  running s = true ->
  let r := _handle_requests (ev :: reads) s in
  res r = Ret tt /\ st r = s'
  /\ socket_events (out r)
     = [Sys (Recv data) true;
        Sys (Sendall (json_dumps (response (id_of d) v e))) false].
Proof.
  intros (Hrecv & Hdata & Hutf & Hjson) Hcall Hsend Hex Hrun.
  pose proof (call_method_spec (method_of d) (params_of d) s) as (Ho & _ & _).
  rewrite Hcall in Ho. cbn in Ho. apply socket_events_stderr in Ho.
  apply String.eqb_neq in Hdata. unfold method_of, params_of, id_of in *.
  cbn [_handle_requests].
  unfold handle_request, parse_request, recv, sendall, _debug, decode_utf8, request_get.
  run. rewrite Hrun, Hrecv. run. rewrite Hdata, Hutf. run. rewrite Hjson. run.
  rewrite Hcall. run. rewrite Hsend. run.
  destruct (is_ConnectionResetError ex); run; [|rewrite Hex; run];
    (split; [done|]; split; [done|]; sock_simpl; by rewrite Ho).
Qed.

(** An exception outside [Exception] raised by the operation
    ([SystemExit], [KeyboardInterrupt]) is not answered: it leaves
    [_call_method] and the loop, and nothing is sent for the request. *)
Theorem base_exception_is_not_answered
    (ev : read_event) (reads : list read_event) (s : t P) data d n args ex p' o :
  delivers_object ev data d ->
  last_segment (method_of d) = inr n ->
  hasattr (plugin s) n = true ->
  unpack (params_of d) = inr args ->
  invoke n args (plugin s) = Step (Raise ex) p' o ->
  is_Exception ex = false ->
  running s = true ->
  let r := _handle_requests (ev :: reads) s in
  res r = Raise ex /\ socket_events (out r) = [Sys (Recv data) true].
Proof.
  intros (Hrecv & Hdata & Hutf & Hjson) Hn Hattr Hargs Hinv Hex Hrun.
  apply String.eqb_neq in Hdata. unfold method_of, params_of in *.
  assert (is_ConnectionResetError ex = false) as Hreset.
  { destruct ex as [[] ?]; done. }
  cbn [_handle_requests].
  unfold handle_request, parse_request, recv, sendall, _debug, decode_utf8, request_get,
    _call_method, call_method_try, call_resolved, call_method_except, on_plugin.
  run. rewrite Hrun, Hrecv. run. rewrite Hdata, Hutf. run. rewrite Hjson. run.
  rewrite Hn. run. rewrite Hattr. run. rewrite Hargs. run. rewrite Hinv. run.
  rewrite Hex. run. rewrite Hreset, Hex. run.
  split; [done|]. sock_simpl. by rewrite socket_events_stderr by apply Forall_stderr_fmap.
Qed.

(** [d.get(key, default)] is the entry for the key where there is one,
    and [default] where there is none. *)
Lemma dict_get_default (d : list (string * pyval)) (key : string) (dflt : pyval) :
  dict_get d key dflt = default dflt (dict_lookup d key).
Proof.
  induction d as [|[k x] d' IH]; cbn; [done|].
  destruct (String.eqb k key); [done|exact IH].
Qed.

(** A request object that lacks keys is served with the defaults. The
    method called is the one the object names, or the attribute with the
    empty name when it has no ["method"]; the parameters are those it
    gives, or none when it has no ["params"]; and the response carries its
    id, or 0 when it has no ["id"]. So, on a plugin without an attribute of
    the empty name, the empty request object is answered under the id 0
    with the not-found error for the empty name, and the loop goes on. *)
Theorem missing_keys_take_defaults
    (ev : read_event) (s : t P) data d :
  delivers_object ev data d ->
  (forall v e s' o,
     _call_method (default (PStr EmptyString) (dict_lookup d "method"))
                  (default (PList []) (dict_lookup d "params")) s
     = Step (Ret (v, e)) s' o ->
     socket_events (out (handle_request ev s))
     = [Sys (Recv data) true;
        Sys (Sendall (json_dumps (response (default (PInt 0) (dict_lookup d "id")) v e)))
            (send_ok ev)]
     /\ st (handle_request ev s) = s')
  /\ (dict_lookup d "method" = None -> dict_lookup d "params" = None ->
      dict_lookup d "id" = None -> hasattr (plugin s) EmptyString = false ->
      socket_events (out (handle_request ev s))
      = [Sys (Recv data) true;
         Sys (Sendall (json_dumps (response (PInt 0) PNone (PStr (not_found EmptyString)))))
             (send_ok ev)]
      /\ st (handle_request ev s) = s
      /\ (send_result ev = None -> res (handle_request ev s) = Ret Next)).
Proof.
  intros (Hrecv & Hdata & Hutf & Hjson).
  assert (forall v e s' o,
            _call_method (default (PStr EmptyString) (dict_lookup d "method"))
                         (default (PList []) (dict_lookup d "params")) s
            = Step (Ret (v, e)) s' o ->
            socket_events (out (handle_request ev s))
            = [Sys (Recv data) true;
               Sys (Sendall (json_dumps (response (default (PInt 0) (dict_lookup d "id")) v e)))
                   (send_ok ev)]
            /\ st (handle_request ev s) = s'
            /\ (send_result ev = None -> res (handle_request ev s) = Ret Next)) as Hgen.
  { intros v e s' o Hcall. rewrite <- !dict_get_default in *.
    by apply (handle_request_answer ev s data d v e s' o). }
  split.
  - intros v e s' o Hcall. destruct (Hgen v e s' o Hcall) as (? & ? & _). by split.
  - intros Hm Hp Hid Hattr. rewrite Hm, Hp, Hid in Hgen. cbn [default] in Hgen.
    apply (Hgen PNone (PStr (not_found EmptyString)) s []).
    unfold _call_method, call_method_try. cbn [last_segment].
    change (segment EmptyString) with EmptyString. run. rewrite Hattr. by run.
Qed.

End LoopEnds.

(** ** Stripping the qualifier of a method name *)

Lemma split_on_not_nil (sep : ascii) (s : string) : Text.split_on sep s <> [].
Proof.
  induction s as [|c s IH]; cbn; [done|].
  destruct (Ascii.eqb c sep); [done|]. by destruct (Text.split_on sep s).
Qed.

Lemma last_cons_not_nil {A} (x d : A) (l : list A) :
  l <> [] -> List.last (x :: l) d = List.last l d.
Proof. by destruct l. Qed.

Lemma split_on_qualified (q m : string) (d : string) :
  List.last (Text.split_on "." (q +:+ String "." m)) d = List.last (Text.split_on "." m) d
  /\ exists seg segs, Text.split_on "." (q +:+ String "." m) = seg :: segs /\ segs <> [].
Proof.
  induction q as [|c q [IHl (seg & segs & IHs & IHn)]].
  - change (EmptyString +:+ String "." m) with (String "." m).
    cbn [Text.split_on Ascii.eqb Bool.eqb]. split.
    + apply last_cons_not_nil, split_on_not_nil.
    + eexists _, _. split; [done|]. apply split_on_not_nil.
  - change (String c q +:+ String "." m) with (String c (q +:+ String "." m)).
    cbn [Text.split_on]. destruct (Ascii.eqb c "."); rewrite IHs.
    + split; [|by eexists _, _]. rewrite <- IHl, IHs. by apply last_cons_not_nil.
    + split; [|by eexists _, _]. rewrite <- IHl, IHs.
      rewrite !last_cons_not_nil; done.
Qed.

Lemma split_on_without_separator (m : string) :
  Text.contains "." m = false -> Text.split_on "." m = [m].
Proof.
  induction m as [|c m IH]; [done|].
  cbn [Text.contains String.prefix Text.split_on].
  destruct (Ascii.ascii_dec "." c) as [<-|Hc].
  - by destruct m.
  - assert (Ascii.eqb c "." = false) as -> by (apply Ascii.eqb_neq; congruence).
    cbn. intros Hm. by rewrite IH.
Qed.

(** The method name the server looks up is what follows the last dot:
    any qualifier in front is dropped, and a name without a dot is kept
    whole. *)
Theorem segment_drops_the_qualifier (q m : string) :
  SimpleRPCServer.segment (q +:+ "." +:+ m) = SimpleRPCServer.segment m
  /\ (Text.contains "." m = false -> SimpleRPCServer.segment m = m).
Proof.
  unfold SimpleRPCServer.segment. split.
  - apply split_on_qualified.
  - intros Hm. by rewrite split_on_without_separator.
Qed.

(** ** Closing down *)

Section ClosingDown.
Context {P : Type} `{PluginObject P} `{Runtime}.
Import SimpleRPCServer.

(** A socket the server holds is closed. *)
Definition closed_if_any (x : option sock) : option sock :=
  match x with Some _ => Some SockClosed | None => None end.

(** [stop] never fails: it clears the running flag, closes the two
    sockets the server holds (first the connection, then the listening
    socket), and leaves the plugin alone. *)
Lemma stop_closes_what_is_held (s : t P) :
  stop s
  = Step (Ret tt)
      (Build (plugin s) (closed_if_any (server_socket s))
             (closed_if_any (client_socket s)) false)
      ((match client_socket s with Some _ => [Sys CloseClient true] | None => [] end)
       ++ (match server_socket s with Some _ => [Sys CloseServer true] | None => [] end)
       ++ [Stderr ("[RPC] " +:+ "服务器已停止")]).
Proof.
  unfold stop, _debug. run. fields.
  destruct s as [p [ss|] [cs|] r]; by run; fields.
Qed.

(** However [start] ends (by return or by exception, whichever call
    failed), it has run [stop]: the running flag is off and no socket
    is left open. *)
Theorem start_leaves_no_socket_open (os : os_env) (s : t P) :
  res (start os s) <> Hang ->
  running (st (start os s)) = false
  /\ server_socket (st (start os s)) <> Some SockOpen
  /\ client_socket (st (start os s)) <> Some SockOpen.
Proof.
  unfold start. generalize (try_except
    (sys Socket (os_socket os);;
     modify (set_server_socket (Some SockOpen));;
     sys Setsockopt (os_setsockopt os);;
     sys Bind (os_bind os);;
     sys Listen (os_listen os);;
     emit (Sys Getsockname true);;
     (let '(host, port) := os_sockname os in
      emit (Stdout (handshake host port));;
      _debug ("服务器启动在 " +:+ host +:+ ":" +:+ pretty port);;
      _debug "等待客户端连接...";;
      addr ← accept (os_accept os);
      modify (set_client_socket (Some SockOpen));;
      _debug ("客户端已连接: " +:+ py_str addr);;
      modify (set_running true);;
      _handle_requests (os_reads os)))
    (fun e => if is_Exception e
              then Some (_debug ("服务器错误: " +:+ exc_str e);; raise e)
              else None)).
  intros body. unfold finally.
  destruct (body s) as [x s1 o1]. rewrite (stop_closes_what_is_held s1).
  destruct x; [| |done]; intros _; cbn [st server_socket client_socket running];
    (split; [done|]); split; by destruct s1 as [? [?|] [?|] ?].
Qed.

End ClosingDown.


(** ** The life of the process *)



(** Membership in, and being the end of, a trace that is written out. *)
Ltac solve_elem := repeat first [ apply list_elem_of_here | apply list_elem_of_further ].
Ltac solve_suffix :=
  repeat first [ reflexivity | apply suffix_cons_r | apply suffix_app_r ].

(** Lookups in a dictionary that is written out. *)
Ltac dict_simpl :=
  cbn [NotifyPlugin.attr_get NotifyPlugin.attr_set String.eqb Ascii.eqb Bool.eqb].

Section ProcessLife.
Context `{Runtime} `{NotifyPlugin.ObjectBase}.
Import SimpleRPCServer.
#[local] Existing Instance NotifyPlugin.plugin_object.

(** The two events that matter to the host before the session: the write
    to standard output, and the outcome of [accept]. *)
Definition is_milestone (a : action) : bool :=
  match a with
  | Stdout _ => true
  | Sys Accept _ => true
  | _ => false
  end.

Definition milestones (tr : list action) : list action := List.filter is_milestone tr.

Lemma milestones_app tr1 tr2 : milestones (tr1 ++ tr2) = milestones tr1 ++ milestones tr2.
Proof. apply List.filter_app. Qed.

Lemma milestones_loop tr : Forall loop_event tr -> milestones tr = [].
Proof.
  induction 1 as [|a tr Ha _ IH]; [done|].
  destruct a as [| |[] ?]; cbn in *; done.
Qed.

Lemma milestones_stderr (l : list string) : milestones (Stderr <$> l) = [].
Proof. by induction l. Qed.


Lemma milestones_cons_stderr (line : string) tr :
  milestones (Stderr line :: tr) = milestones tr.
Proof. done. Qed.

(** The milestones of [start], on any server. *)
Lemma start_milestones {P : Type} `{PluginObject P} (os : os_env) (s : t P) :
  let line := Stdout (handshake (os_sockname os).1 (os_sockname os).2) in
  milestones (out (start os s)) = []
  \/ milestones (out (start os s)) = [line]
  \/ exists ok, milestones (out (start os s)) = [line; Sys Accept ok].
Proof.
  unfold start, accept, stop, _debug.
  destruct (os_sockname os) as [host port]. cbn [fst snd].
  run.
  repeat (first
    [ match goal with
      | |- context [_handle_requests ?rs ?s] =>
          generalize (handle_requests_spec rs s);
          destruct (_handle_requests rs s) as [? ? ?]; run; intros (?&?&?)
      end
    | split_head ]; run; fields).
  all: rewrite ?app_nil_r.
  all: repeat (rewrite ?milestones_app; cbn [milestones List.filter is_milestone app]).
  all: rewrite ?milestones_loop by done.
  all: cbn [app]; eauto.
Qed.

(** Whatever the environment and the operating system do, and whatever
    the requests have made of the plugin, standard output carries nothing
    but the handshake line, at most once, and [accept] is called at most
    once, after the handshake has been written. *)
Theorem stdout_carries_only_the_handshake (os : os_env) :
  let line := Stdout (handshake (os_sockname os).1 (os_sockname os).2) in
  milestones (out (run_main os)) = []
  \/ milestones (out (run_main os)) = [line]
  \/ exists ok, milestones (out (run_main os)) = [line; Sys Accept ok].
Proof.
  intros line.
  unfold run_main, main, unborn, check_environment, on_plugin,
    NotifyPlugin.__init__, NotifyPlugin.self_debug, NotifyPlugin._debug,
    NotifyPlugin.self_attr, SimpleRPCServer.__init__.
  run. case_bool_decide; run; [|by left].
  destruct (Text.contains _ _); run; [|by left].
  fields; dict_simpl. run. fields.
  match goal with
  | |- context [start os ?s] =>
      pose proof (start_milestones os s) as Hstart;
      destruct (start os s) as [x s1 o1]
  end.
  cbn [out] in Hstart. fold line in Hstart.
  assert (forall tr, milestones tr = milestones o1 ->
            milestones tr = [] \/ milestones tr = [line]
            \/ exists ok, milestones tr = [line; Sys Accept ok]) as Hmid.
  { intros tr ->. exact Hstart. }
  destruct x as [[]|e|]; run; fields.
  - destruct (invoke "Cleanup" [] (plugin s1)) as [[?|?|] p' o2]; run; apply Hmid;
      by rewrite !milestones_cons_stderr, !milestones_app, milestones_stderr, !app_nil_r.
  - destruct (is_KeyboardInterrupt e); run; fields;
      [|destruct (is_Exception e); run; fields];
      destruct (invoke "Cleanup" [] (plugin s1)) as [[?|?|] p' o2]; run; apply Hmid;
      rewrite !milestones_cons_stderr, !milestones_app, ?milestones_cons_stderr,
        milestones_stderr, ?app_nil_r;
      by rewrite ?milestones_app, ?milestones_cons_stderr, ?app_nil_r.
  - apply Hmid. by rewrite !milestones_cons_stderr.
Qed.

(** The environment passes [check_environment]. *)
Definition environment_ok (os : os_env) : Prop :=
  environ os !! "ARCADE_RPC_PLUGIN" = Some "arcade-rpc-plugin-protocol"
  /\ Text.contains "2" (default "1" (environ os !! "PLUGIN_PROTOCOL_VERSIONS")) = true.

(** The first of the four set-up calls that fails, if any. *)
Definition setup_fault (os : os_env) : option pyexc :=
  match os_socket os with
  | Some e => Some e
  | None =>
      match os_setsockopt os with
      | Some e => Some e
      | None =>
          match os_bind os with
          | Some e => Some e
          | None => os_listen os
          end
      end
  end.

(** The two lines [Cleanup] prints on an instance that logs under [n]. *)
Definition cleanup_lines (n : pyval) : list action :=
  [Stderr (plugin_log n "Cleanup() 被调用"); Stderr (plugin_log n "插件清理成功")].

Lemma environment_ok_check {S} (os : os_env) (s : S) :
  environment_ok os -> check_environment (environ os) s = Step (Ret tt) s [].
Proof.
  intros [Hc Hv]. unfold check_environment. rewrite Hc, Hv.
  rewrite bool_decide_eq_true_2 by done. by run.
Qed.

Lemma exception_is_no_interrupt e : is_Exception e = true -> is_KeyboardInterrupt e = false.
Proof. by destruct e as [[] ?]. Qed.

(** [plugin.Cleanup()], as [main] calls it: on an instance whose
    [Cleanup] is the method of the class and that logs under [n], it prints
    its two lines and returns; on an instance where an entry of the
    dictionary hides [Cleanup], it raises and prints nothing. *)
Lemma cleanup_runs (p : NotifyPlugin.t) (n : pyval) :
  NotifyPlugin.attr_get p "Cleanup" = None ->
  logs_as p n ->
  invoke "Cleanup" [] p
  = Step (Ret PNone) p [plugin_log n "Cleanup() 被调用"; plugin_log n "插件清理成功"].
Proof.
  intros Hc Hlog. resolve. run. rewrite Hc. run. unfold NotifyPlugin.Cleanup.
  by logged Hlog.
Qed.


(** Unfold the process down to the calls of [start]. *)
Ltac boot Henv :=
  unfold exit_code, run_main, main, unborn, on_plugin,
    NotifyPlugin.__init__, NotifyPlugin.self_debug, NotifyPlugin._debug,
    NotifyPlugin.self_attr, SimpleRPCServer.__init__;
  run; rewrite (environment_ok_check _ _ Henv); run; fields; dict_simpl; run; fields.

(** When creating, configuring, binding or listening on the socket fails,
    the process writes no handshake, makes no further socket call except
    closing the socket it did create, reports the fault on standard error,
    runs the plugin's [Cleanup], and exits with status 1. *)
Theorem setup_fault_is_fatal (os : os_env) (e : pyexc) :
  environment_ok os ->
  setup_fault os = Some e ->
  is_Exception e = true ->
  exit_code (run_main os) = Some 1
  /\ milestones (out (run_main os)) = []
  /\ Stderr ("[Main] 错误: " +:+ exc_str e) ∈ out (run_main os)
  /\ cleanup_lines (PStr "python-notify") `suffix_of` out (run_main os).
Proof.
  intros Henv Hfault He.
  pose proof (exception_is_no_interrupt e He) as Hki.
  boot Henv.
  unfold start, stop, _debug, setup_fault in *.
  destruct (os_sockname os) as [host port].
  destruct (os_socket os) as [e1|]; [injection Hfault as ->|];
    [|destruct (os_setsockopt os) as [e2|]; [injection Hfault as ->|];
      [|destruct (os_bind os) as [e3|]; [injection Hfault as ->|]; [|rewrite Hfault]]].
  all: run; fields; rewrite ?He; run; fields; rewrite ?Hki, ?He; run; fields.
  all: rewrite (cleanup_runs _ (PStr "python-notify")) by done; run.
  all: split; [done|]; split; [done|]; split; [solve_elem|solve_suffix].
Qed.

Lemma no_setup_fault os :
  setup_fault os = None ->
  os_socket os = None /\ os_setsockopt os = None /\ os_bind os = None /\ os_listen os = None.
Proof.
  unfold setup_fault.
  destruct (os_socket os), (os_setsockopt os), (os_bind os), (os_listen os); done.
Qed.

(** When [accept] fails, the handshake has been written; the process
    closes the listening socket, reports the fault, runs the plugin's
    [Cleanup], and exits with status 1. *)
Theorem accept_fault_is_fatal (os : os_env) (e : pyexc) :
  environment_ok os ->
  setup_fault os = None ->
  os_accept os = Some (inl e) ->
  is_Exception e = true ->
  exit_code (run_main os) = Some 1
  /\ milestones (out (run_main os))
     = [Stdout (handshake (os_sockname os).1 (os_sockname os).2); Sys Accept false]
  /\ socket_events (out (run_main os)) = listening ++ [Sys Accept false; Sys CloseServer true]
  /\ cleanup_lines (PStr "python-notify") `suffix_of` out (run_main os).
Proof.
  intros Henv (Hs & Ho & Hb & Hl)%no_setup_fault Hacc He.
  pose proof (exception_is_no_interrupt e He) as Hki.
  boot Henv.
  unfold start, stop, accept, _debug.
  destruct (os_sockname os) as [host port]. rewrite Hs, Ho, Hb, Hl, Hacc.
  run; fields; rewrite ?He; run; fields; rewrite ?Hki, ?He; run; fields.
  rewrite (cleanup_runs _ (PStr "python-notify")) by done. run.
  split; [done|]; split; [done|]; split; [done|solve_suffix].
Qed.


End ProcessLife.

(** * The further properties on concrete inputs *)

(** As in the sessions above, the runtime is [Sample.runtime] and the
    plugin is the shipped [NotifyPlugin] over [Sample.object_base]. *)
Section FurtherExamples.
Import SimpleRPCServer.
#[local] Existing Instance Sample.runtime.
#[local] Existing Instance Sample.object_base.
#[local] Existing Instance NotifyPlugin.plugin_object.

Ltac in_list := repeat first [apply list_elem_of_here | apply list_elem_of_further].

(** [Init(None)] on the plugin as built. *)
Lemma Init_without_config_witness :
  NotifyPlugin.Init PNone Sample.plugin0
  = Step (Ret PNone) Sample.plugin0
      [plugin_log (PStr "python-notify") ("Init() 被调用，配置: " +:+ py_str PNone);
       plugin_log (PStr "python-notify") "插件初始化成功"].
Proof.
  apply (Init_without_config_changes_nothing PNone Sample.plugin0 (PStr "python-notify"));
    [reflexivity|by split].
Defined.

(** [Init] with the text [[1, 2]], as text and as bytes. *)
Lemma Init_stores_witness :
  (res (NotifyPlugin.Init (PStr json_array) Sample.plugin0) = Ret PNone
   /\ st (NotifyPlugin.Init (PStr json_array) Sample.plugin0)
      = NotifyPlugin.instance (NotifyPlugin.set_config (PList [PInt 1; PInt 2]) Sample.fields0))
  /\ (res (NotifyPlugin.Init (PBytes json_array) Sample.plugin0) = Ret PNone
      /\ st (NotifyPlugin.Init (PBytes json_array) Sample.plugin0)
         = NotifyPlugin.instance
             (NotifyPlugin.set_config (PList [PInt 1; PInt 2]) Sample.fields0)).
Proof.
  destruct (Init_stores_the_parsed_config json_array (PList [PInt 1; PInt 2]) Sample.plugin0
              (PStr "python-notify"))
    as [Htext Hbytes]; [done|vm_compute; reflexivity|by split|].
  split; [exact Htext|apply Hbytes; reflexivity].
Defined.

(** A configuration text that does not parse. *)
Definition bad_config : string := "{".

(** [Init] on a text that is no JSON: the report, and the plugin as it
    was. *)
Lemma Init_fails_witness :
  exists msg,
    res (NotifyPlugin.Init (PStr bad_config) Sample.plugin0) = Ret (PStr msg)
    /\ st (NotifyPlugin.Init (PStr bad_config) Sample.plugin0) = Sample.plugin0
    /\ (String.prefix "配置解析失败: " msg = true \/ String.prefix "初始化失败: " msg = true).
Proof.
  pose proof (Init_fails_without_side_effect (PStr bad_config) Sample.plugin0
                (PStr "python-notify") (conj eq_refl eq_refl)) as Hinit.
  destruct (res (NotifyPlugin.Init (PStr bad_config) Sample.plugin0)) as [[]| |] eqn:Hres;
    try (vm_compute in Hres; discriminate Hres).
  eexists. split; [reflexivity|exact Hinit].
Defined.

(** The three send operations on the empty text. *)
Lemma send_operations_witness :
  (res (NotifyPlugin.Send (PStr EmptyString) PNone Sample.plugin0) = Ret PNone
   /\ st (NotifyPlugin.Send (PStr EmptyString) PNone Sample.plugin0) = Sample.plugin0)
  /\ (res (NotifyPlugin.SendTemplate (PStr "alert") (PStr EmptyString) PNone Sample.plugin0)
      = Ret PNone
      /\ st (NotifyPlugin.SendTemplate (PStr "alert") (PStr EmptyString) PNone Sample.plugin0)
         = Sample.plugin0)
  /\ (res (NotifyPlugin.SendBatch (PStr EmptyString) PNone Sample.plugin0) = Ret PNone
      /\ st (NotifyPlugin.SendBatch (PStr EmptyString) PNone Sample.plugin0)
         = Sample.plugin0).
Proof.
  apply (send_operations_accept_an_empty_payload
           (PStr EmptyString) (PStr "alert") PNone Sample.plugin0 (PStr "python-notify"));
    [reflexivity|by split].
Defined.

(** [SendBatch] on a batch of two messages. *)
Lemma SendBatch_witness :
  st (NotifyPlugin.SendBatch (PStr json_array) PNone Sample.plugin0) = Sample.plugin0
  /\ res (NotifyPlugin.SendBatch (PStr json_array) PNone Sample.plugin0) = Ret PNone
  /\ plugin_log (PStr "python-notify") "批量发送 2 条消息"
     ∈ out (NotifyPlugin.SendBatch (PStr json_array) PNone Sample.plugin0).
Proof.
  apply (SendBatch_counts_the_messages_or_reports
           json_array (PList [PInt 1; PInt 2]) PNone Sample.plugin0 (PStr "python-notify"));
    [done|vm_compute; reflexivity|by split].
Defined.

(** [Send] of a message leaves the whole plugin as it was. *)
Lemma operations_keep_witness :
  same_identity Sample.plugin0
    (st (invoke "Send" [PStr json_array; PNone] Sample.plugin0))
  /\ st (invoke "Send" [PStr json_array; PNone] Sample.plugin0) = Sample.plugin0.
Proof.
  destruct (operations_keep_the_plugin "Send" [PStr json_array; PNone] Sample.plugin0)
    as [Hid Hsame]; [unfold NotifyPlugin.operations; in_list|].
  split; [exact Hid|apply Hsame; discriminate].
Defined.

(** [Init] on a text that is no JSON returns its report. *)
Lemma operations_return_witness :
  exists v, res (invoke "Init" [PStr bad_config] Sample.plugin0) = Ret v
            /\ (v = PNone \/ exists msg, v = PStr msg /\ unmarked msg).
Proof.
  apply (operations_return_none_or_unmarked_text "Init" [PStr bad_config] Sample.plugin0).
  - unfold NotifyPlugin.operations; in_list.
  - reflexivity.
  - apply instance_initialised.
  - exact sample_loads_raises.
Defined.

(** A request for [Init] with a text that is no JSON: the report of the
    operation comes back in the result slot. *)
Lemma operation_failure_witness :
  exists v,
    res (invoke "Init" [PStr bad_config] (plugin Sample.serving)) = Ret v
    /\ res (_call_method (PStr "Init") (PList [PStr bad_config]) Sample.serving)
       = Ret (v, PNone).
Proof.
  apply (operation_failure_is_answered_as_result Sample.serving "Init" [PStr bad_config]).
  - unfold NotifyPlugin.operations; in_list.
  - reflexivity.
  - apply instance_initialised.
  - exact sample_loads_raises.
Defined.

(** A request for [Name] with one parameter. *)
Lemma wrong_number_of_parameters_witness :
  let error_msg := call_failed (exc_of_fault (BadArity "Name" 0 1)) in
  _call_method (PStr "Name") (PList [PInt 1]) Sample.serving
  = Step (Ret (PNone, PStr error_msg)) Sample.serving [Stderr ("[RPC] " +:+ error_msg)].
Proof.
  apply (wrong_number_of_parameters_is_a_call_failure Sample.serving "Name" 0 [PInt 1]).
  - reflexivity.
  - cbn. lia.
  - reflexivity.
Defined.

(** A server whose plugin has been given a configuration. *)
Definition configured : SimpleRPCServer.t NotifyPlugin.t :=
  Build (NotifyPlugin.instance (NotifyPlugin.set_config (PList [PInt 1; PInt 2]) Sample.fields0))
    (Some SockOpen) (Some SockOpen) true.

(** A request for [__init__] on it: the configuration is gone. *)
Lemma init_request_witness :
  _call_method (PStr "__init__") (PList []) configured
  = Step (Ret (PNone, PNone)) Sample.serving
      [Stderr (plugin_log (PStr "python-notify") "插件实例已创建")].
Proof.
  apply (init_request_resets_the_plugin configured
           (NotifyPlugin.set_config (PList [PInt 1; PInt 2]) Sample.fields0)).
  reflexivity.
Defined.

(** The peer closes while a request is still to come. *)
Lemma zero_length_read_witness :
  _handle_requests [closed; Sample.incoming req_name] Sample.serving
  = Step (Ret tt) Sample.serving
      [Sys (Recv EmptyString) true; Stderr ("[RPC] " +:+ "连接关闭")].
Proof.
  apply (zero_length_read_ends_the_loop closed [Sample.incoming req_name] Sample.serving);
    reflexivity.
Defined.

(** A read that times out. *)
Definition timed_out : pyexc := PyExc OSError "timed out".

Definition failing_read : read_event :=
  {| recv_result := inl timed_out; send_result := None |}.

Lemma read_fault_witness :
  res (_handle_requests [failing_read; Sample.incoming req_name] Sample.serving) = Ret tt
  /\ st (_handle_requests [failing_read; Sample.incoming req_name] Sample.serving)
     = Sample.serving
  /\ socket_events
       (out (_handle_requests [failing_read; Sample.incoming req_name] Sample.serving))
     = [Sys (Recv EmptyString) false].
Proof.
  apply (read_fault_ends_the_loop
           failing_read [Sample.incoming req_name] Sample.serving timed_out);
    reflexivity.
Defined.

(** A peer that reads nothing: the send fails. *)
Definition broken_pipe : pyexc := PyExc OSError "Broken pipe".

Definition unanswerable (data : string) : read_event :=
  {| recv_result := inr data; send_result := Some broken_pipe |}.

Lemma send_fault_witness :
  let r := _handle_requests [unanswerable req_name; Sample.incoming req_cleanup]
             Sample.serving in
  res r = Ret tt /\ st r = Sample.serving
  /\ socket_events (out r)
     = [Sys (Recv req_name) true;
        Sys (Sendall (json_dumps (response (PInt 1) (PStr "python-notify") PNone))) false].
Proof.
  apply (send_fault_ends_the_loop
           (unanswerable req_name) [Sample.incoming req_cleanup] Sample.serving
           req_name (parsed "Plugin.Name" 1) (PStr "python-notify") PNone Sample.serving
           (out (_call_method (PStr "Plugin.Name") (PList []) Sample.serving))
           broken_pipe).
  - repeat split; [done|vm_compute; reflexivity..].
  - vm_compute. reflexivity.
  - reflexivity.
  - reflexivity.
  - reflexivity.
Defined.

(** A plugin whose one operation, [Quit], calls [sys.exit(3)]. *)
Definition quitting : PluginObject unit :=
  {| hasattr _ n := String.eqb n "Quit";
     invoke _ _ := raise (PyExc (SystemExit 3) "3") |}.

Definition req_quit : string := Sample.request "Quit" "[]" 1.

Lemma base_exception_witness :
  let r := _handle_requests (H := quitting) [Sample.incoming req_quit]
             (Build tt (Some SockOpen) (Some SockOpen) true) in
  res r = Raise (PyExc (SystemExit 3) "3")
  /\ socket_events (out r) = [Sys (Recv req_quit) true].
Proof.
  apply (base_exception_is_not_answered (H := quitting)
           (Sample.incoming req_quit) [] (Build tt (Some SockOpen) (Some SockOpen) true)
           req_quit (parsed "Quit" 1) "Quit" [] (PyExc (SystemExit 3) "3") tt []).
  - repeat split; [done|vm_compute; reflexivity..].
  - reflexivity.
  - reflexivity.
  - reflexivity.
  - reflexivity.
  - reflexivity.
  - reflexivity.
Defined.

(** The request [{}]: no method, no parameters, no id. *)
Definition req_empty : string := "{}".

Lemma missing_keys_witness :
  socket_events (out (handle_request (Sample.incoming req_empty) Sample.serving))
  = [Sys (Recv req_empty) true;
     Sys (Sendall (json_dumps (response (PInt 0) PNone (PStr (not_found EmptyString))))) true]
  /\ st (handle_request (Sample.incoming req_empty) Sample.serving) = Sample.serving
  /\ res (handle_request (Sample.incoming req_empty) Sample.serving) = Ret Next.
Proof.
  destruct (missing_keys_take_defaults (Sample.incoming req_empty) Sample.serving
              req_empty []) as [_ Hempty].
  - repeat split; [done|vm_compute; reflexivity..].
  - destruct (Hempty eq_refl eq_refl eq_refl eq_refl) as (Hev & Hst & Hres).
    split; [exact Hev|]. split; [exact Hst|]. by apply Hres.
Defined.

(** An operating system on which [bind] fails. *)
Definition address_in_use : pyexc := PyExc OSError "Address already in use".

Definition os_bind_fails : os_env :=
  {| environ := trusted_environ; os_socket := None; os_setsockopt := None;
     os_bind := Some address_in_use; os_listen := None;
     os_sockname := ("127.0.0.1", 40000); os_accept := Some (inr peer);
     os_reads := [] |}.

Lemma start_leaves_no_socket_witness :
  running (st (start os_bind_fails fresh)) = false
  /\ server_socket (st (start os_bind_fails fresh)) <> Some SockOpen
  /\ client_socket (st (start os_bind_fails fresh)) <> Some SockOpen.
Proof.
  apply (start_leaves_no_socket_open os_bind_fails fresh).
  vm_compute. discriminate.
Defined.

Lemma setup_fault_witness :
  exit_code (run_main os_bind_fails) = Some 1
  /\ milestones (out (run_main os_bind_fails)) = []
  /\ Stderr ("[Main] 错误: " +:+ exc_str address_in_use) ∈ out (run_main os_bind_fails)
  /\ cleanup_lines (PStr "python-notify") `suffix_of` out (run_main os_bind_fails).
Proof.
  apply (setup_fault_is_fatal os_bind_fails address_in_use).
  - split; vm_compute; reflexivity.
  - reflexivity.
  - reflexivity.
Defined.

(** An operating system on which [accept] fails. *)
Definition interrupted : pyexc := PyExc OSError "Interrupted system call".

Definition os_accept_fails : os_env :=
  os_with trusted_environ (Some (inl interrupted)) [].

Lemma accept_fault_witness :
  exit_code (run_main os_accept_fails) = Some 1
  /\ milestones (out (run_main os_accept_fails))
     = [Stdout (handshake (os_sockname os_accept_fails).1 (os_sockname os_accept_fails).2);
        Sys Accept false]
  /\ socket_events (out (run_main os_accept_fails))
     = listening ++ [Sys Accept false; Sys CloseServer true]
  /\ cleanup_lines (PStr "python-notify") `suffix_of` out (run_main os_accept_fails).
Proof.
  apply (accept_fault_is_fatal os_accept_fails interrupted).
  - split; vm_compute; reflexivity.
  - reflexivity.
  - reflexivity.
  - reflexivity.
Defined.



(** A session in which a request hides [Cleanup] behind an instance
    attribute, after which the peer closes: the request is answered with a
    null result and a null error, and the process ends with exit status 1,
    the stop line of the server the last of its output. *)
Definition req_hide_cleanup : string :=
  Sample.request "__setattr__" ("[" +:+ Sample.quoted "Cleanup" +:+ ", "
                                +:+ Sample.quoted "x" +:+ "]") 1.

Definition os_hidden_cleanup : os_env :=
  os_with trusted_environ (Some (inr peer)) [Sample.incoming req_hide_cleanup; closed].

Example hidden_cleanup_is_fatal :
  res (_call_method (PStr "__setattr__") (PList [PStr "Cleanup"; PStr "x"]) Sample.serving)
  = Ret (PNone, PNone)
  /\ exit_code (run_main os_hidden_cleanup) = Some 1
  /\ List.last (out (run_main os_hidden_cleanup)) (Stdout EmptyString)
     = Stderr ("[RPC] " +:+ "服务器已停止").
Proof. repeat split; vm_compute; reflexivity. Qed.

(** A configuration stored, then a clean-up: the name is answered as
    before. *)
Definition two_calls : list (string * list pyval) :=
  [("Init", [PStr json_array]); ("Cleanup", [])].

Lemma identity_survives_witness :
  res (NotifyPlugin.Name (after_calls two_calls Sample.plugin0))
  = res (NotifyPlugin.Name Sample.plugin0)
  /\ res (NotifyPlugin.Description (after_calls two_calls Sample.plugin0))
     = res (NotifyPlugin.Description Sample.plugin0)
  /\ res (NotifyPlugin.Version (after_calls two_calls Sample.plugin0))
     = res (NotifyPlugin.Version Sample.plugin0)
  /\ res (NotifyPlugin.Type_ (after_calls two_calls Sample.plugin0))
     = res (NotifyPlugin.Type_ Sample.plugin0).
Proof.
  apply (identity_survives_any_calls two_calls Sample.plugin0).
  repeat (constructor; [cbn; unfold NotifyPlugin.operations; in_list|]). constructor.
Defined.

(** A request that hides [_debug] behind an instance attribute: from
    then on every operation fails where it would print, and the failure is
    answered as a call failure. *)
Example hidden_debug_fails_the_operations :
  let s1 := st (_call_method (PStr "__setattr__") (PList [PStr "_debug"; PStr "x"])
                  Sample.serving) in
  res (_call_method (PStr "__setattr__") (PList [PStr "_debug"; PStr "x"]) Sample.serving)
  = Ret (PNone, PNone)
  /\ res (_call_method (PStr "Name") (PList []) s1)
     = Ret (PNone, PStr (call_failed (exc_of_fault (NotCallable (PStr "x")))))
  /\ res (_call_method (PStr "Cleanup") (PList []) s1)
     = Ret (PNone, PStr (call_failed (exc_of_fault (NotCallable (PStr "x"))))).
Proof. repeat split; vm_compute; reflexivity. Qed.

(** A request that deletes [name]: the getter fails in [_debug], which
    reads it. *)
Example deleted_name_fails_the_getter :
  let s1 := st (_call_method (PStr "__delattr__") (PList [PStr "name"]) Sample.serving) in
  res (_call_method (PStr "Name") (PList []) s1)
  = Ret (PNone, PStr (call_failed (NotifyPlugin.no_attribute "name"))).
Proof. vm_compute. reflexivity. Qed.

End FurtherExamples.
